(** * CinemaTec backend: the enhancement pipeline of [app.py]

    A shallow embedding of the Flask aggregator in [src/app.py]: the two
    upstream clients, the two per-movie enhancement functions and the
    HTTP endpoints built from them.

    Python objects coming out of [response.json()] are JSON shaped, so one
    inductive type of values carries them.  Exceptions are explicit, the
    dictionary a function mutates in place lives in the state of a small
    state-and-exception monad, and so does the list of HTTP requests issued
    so far.  What the network answers and how long a future keeps its
    caller waiting are inputs of the model. *)

From Stdlib Require Import String Ascii List ZArith Bool Arith Lia DecimalString.
From Stdlib Require Import QArith_base.
Import ListNotations.

Local Close Scope Q_scope.
Local Open Scope string_scope.
Local Open Scope list_scope.

Set Warnings "-register-all".

(** ** Python values *)

Inductive value : Type :=
| VNone
| VBool (b : bool)
| VInt (z : Z)
| VFloat (q : Q)
| VStr (s : string)
| VList (items : list value)
| VDict (entries : list (string * value)).

Inductive exn : Type :=
| KeyError | TypeError | AttributeError | IndexError | TimeoutError.

Inductive result (A : Type) : Type :=
| Ok (a : A)
| Raise (e : exn).

Arguments Ok {A} a.
Arguments Raise {A} e.

(** [bool(v)]: what [if v:] and [not v] test. *)
Definition truthy (v : value) : bool :=
  match v with
  | VNone => false
  | VBool b => b
  | VInt z => negb (Z.eqb z 0)
  | VFloat q => negb (Z.eqb (Qnum q) 0)
  | VStr s => match s with EmptyString => false | String _ _ => true end
  | VList items => match items with [] => false | _ :: _ => true end
  | VDict entries => match entries with [] => false | _ :: _ => true end
  end.

Definition is_numeric (v : value) : bool :=
  match v with
  | VInt _ | VFloat _ => true
  | _ => false
  end.

(** ** Dictionaries: insertion-ordered association lists *)

Definition dict : Type := list (string * value).

Fixpoint dict_get (d : dict) (k : string) : option value :=
  match d with
  | [] => None
  | (k', v) :: rest => if String.eqb k' k then Some v else dict_get rest k
  end.

(** [d[k] = v]: an existing key keeps its place, a new one goes last. *)
Fixpoint dict_set (d : dict) (k : string) (v : value) : dict :=
  match d with
  | [] => [(k, v)]
  | (k', v') :: rest =>
      if String.eqb k' k then (k', v) :: rest
      else (k', v') :: dict_set rest k v
  end.

Definition has_key (v : value) (k : string) : bool :=
  match v with
  | VDict d => match dict_get d k with Some _ => true | None => false end
  | _ => false
  end.

(** [v[k]] for a string key [k]. *)
Definition subscript (v : value) (k : string) : result value :=
  match v with
  | VDict d => match dict_get d k with Some x => Ok x | None => Raise KeyError end
  | _ => Raise TypeError
  end.

(** [v.get(k, default)]: only dictionaries have the method. *)
Definition get_method (v : value) (k : string) (default : value) : result value :=
  match v with
  | VDict d => match dict_get d k with Some x => Ok x | None => Ok default end
  | _ => Raise AttributeError
  end.

(** [v.copy()]: a shallow copy; dictionaries and lists have the method. *)
Definition copy_method (v : value) : result value :=
  match v with
  | VDict d => Ok (VDict d)
  | VList l => Ok (VList l)
  | _ => Raise AttributeError
  end.

(** [v[k] = x] for a string key [k]. *)
Definition setitem (v : value) (k : string) (x : value) : result value :=
  match v with
  | VDict d => Ok (VDict (dict_set d k x))
  | _ => Raise TypeError
  end.

(** [v[0]]. *)
Definition index0 (v : value) : result value :=
  match v with
  | VList (x :: _) => Ok x
  | VList [] => Raise IndexError
  | VStr (String c _) => Ok (VStr (String c EmptyString))
  | VStr EmptyString => Raise IndexError
  | VDict _ => Raise KeyError
  | _ => Raise TypeError
  end.

Fixpoint chars (s : string) : list value :=
  match s with
  | EmptyString => []
  | String c rest => VStr (String c EmptyString) :: chars rest
  end.

(** [for x in v]. *)
Definition iterate (v : value) : result (list value) :=
  match v with
  | VList l => Ok l
  | VDict d => Ok (map (fun kv => VStr (fst kv)) d)
  | VStr s => Ok (chars s)
  | _ => Raise TypeError
  end.

Fixpoint prefix (n : nat) (s : string) : string :=
  match n, s with
  | S n', String c rest => String c (prefix n' rest)
  | _, _ => EmptyString
  end.

(** [v[:n]]. *)
Definition slice_to (n : nat) (v : value) : result value :=
  match v with
  | VList l => Ok (VList (firstn n l))
  | VStr s => Ok (VStr (prefix n s))
  | VDict _ => Raise KeyError
  | _ => Raise TypeError
  end.

(** [str.strip()], on strings whose characters are code points below 256. *)
Definition is_space (c : ascii) : bool :=
  let n := nat_of_ascii c in
  (Nat.leb 9 n && Nat.leb n 13) || (Nat.leb 28 n && Nat.leb n 32)
  || Nat.eqb n 133 || Nat.eqb n 160.

Fixpoint lstrip (s : string) : string :=
  match s with
  | EmptyString => EmptyString
  | String c rest => if is_space c then lstrip rest else s
  end.

Fixpoint rstrip (s : string) : string :=
  match s with
  | EmptyString => EmptyString
  | String c rest =>
      match rstrip rest with
      | EmptyString => if is_space c then EmptyString else String c EmptyString
      | kept => String c kept
      end
  end.

Definition strip (s : string) : string := rstrip (lstrip s).

(** ** The network and the futures *)

Inductive api : Type := Trakt | Tmdb.

Record request : Type := {
  provider : api;
  path : string;
  params : option dict
}.

(** What [requests.get] followed by [raise_for_status] and [json()] does:
    a decoded body, or one of the [RequestException]s. *)
Inductive http_result : Type :=
| HttpJson (v : value)
| HttpFailure.

(** One secondary call as the environment decides it: the reply of the
    provider, and how many time units the caller still has to wait when it
    asks the future for its result. *)
Record call : Type := {
  reply : http_result;
  wait : nat
}.

(** A future holds what its task returned or raised. *)
Record future : Type := {
  produced : result value;
  delay : nat
}.

(** [future.result(timeout=t)]. *)
Definition result_within (t : nat) (f : future) : result value :=
  if Nat.leb (delay f) t then produced f else Raise TimeoutError.

(** ** State, exceptions and the requests sent

    A computation starts from the object its function mutates in place
    ([enhanced_item], [enhanced_movie], [enhanced_movies],
    [enhanced_related]) and ends with a result or an exception, that object
    as it then is, and the requests it sent. *)

Record outcome (A : Type) : Type := {
  res : result A;
  final : value;
  emitted : list request
}.

Arguments res {A} o.
Arguments final {A} o.
Arguments emitted {A} o.

Definition M (A : Type) : Type := value -> outcome A.

Definition ret {A} (a : A) : M A :=
  fun l => {| res := Ok a; final := l; emitted := [] |}.

(** The requests [out] went out before [o] was computed. *)
Definition after {A} (out : list request) (o : outcome A) : outcome A :=
  match o with
  | {| res := r; final := l; emitted := out' |} =>
      {| res := r; final := l; emitted := out ++ out' |}
  end.

Definition bind {A B} (m : M A) (k : A -> M B) : M B :=
  fun l =>
    match m l with
    | {| res := Ok a; final := l'; emitted := out |} => after out (k a l')
    | {| res := Raise e; final := l'; emitted := out |} =>
        {| res := Raise e; final := l'; emitted := out |}
    end.

Notation "x <- m ;; k" := (bind m (fun x => k))
  (at level 61, m at next level, right associativity).
Notation "m ;;; k" := (bind m (fun _ => k))
  (at level 61, right associativity).

Definition lift {A} (r : result A) : M A :=
  fun l => {| res := r; final := l; emitted := [] |}.

(** [try: body / except Exception as e: handler]: what [body] did to the
    object before it raised stays done. *)
Definition try_except {A} (body : M A) (handler : exn -> M A) : M A :=
  fun l =>
    match body l with
    | {| res := Ok a; final := l'; emitted := out |} =>
        {| res := Ok a; final := l'; emitted := out |}
    | {| res := Raise e; final := l'; emitted := out |} =>
        after out (handler e l')
    end.

Definition get_local : M value :=
  fun l => {| res := Ok l; final := l; emitted := [] |}.

Definition set_local (v : value) : M unit :=
  fun _ => {| res := Ok tt; final := v; emitted := [] |}.

(** [local[k] = v]. *)
Definition store (k : string) (v : value) : M unit :=
  fun l =>
    match setitem l k v with
    | Ok d => {| res := Ok tt; final := d; emitted := [] |}
    | Raise e => {| res := Raise e; final := l; emitted := [] |}
    end.

(** [local.append(v)]. *)
Definition append (v : value) : M unit :=
  fun l =>
    match l with
    | VList items => {| res := Ok tt; final := VList (items ++ [v]); emitted := [] |}
    | _ => {| res := Raise AttributeError; final := l; emitted := [] |}
    end.

Definition send (r : request) : M unit :=
  fun l => {| res := Ok tt; final := l; emitted := [r] |}.

Definition run {A} (m : M A) : result A * list request :=
  match m VNone with
  | {| res := r; final := _; emitted := out |} => (r, out)
  end.

(** A callee runs on a local object of its own; what it returns or raises
    is handed back as a value, the way a future keeps it. *)
Definition in_frame {A} (m : M A) : M (result A) :=
  fun l =>
    match run m with
    | (r, out) => {| res := Ok r; final := l; emitted := out |}
    end.

(** A direct call: the callee's exception propagates. *)
Definition call_fn {A} (m : M A) : M A :=
  r <- in_frame m ;; lift r.

(** [executor.submit(task)] and [pool.submit(task)]: the task runs on a
    worker; [d] is how long the caller will have to wait for it. *)
Definition submit (task : M value) (d : nat) : M future :=
  r <- in_frame task ;;
  ret {| produced := r; delay := d |}.

(** ** HTTP responses *)

Record response : Type := {
  body : value;
  status : nat
}.

(** [jsonify(v)] and [jsonify(v), code]. *)
Definition jsonify (v : value) : response := {| body := v; status := 200 |}.

Definition jsonify_with (v : value) (code : nat) : response :=
  {| body := v; status := code |}.

Definition error_body (msg : string) : value := VDict [("error", VStr msg)].

(** ** The program *)

Definition TMDB_IMAGE_BASE : string := "https://image.tmdb.org/t/p/w500".

Section App.

(** The conversion an f-string applies to an interpolated value
    ([format(v, '')]) belongs to the language, not to the repository. *)
Variable format_value : value -> string.

(** [os.getenv('TMDB_API_KEY')]. *)
Variable TMDB_API_KEY : option string.

(** [bool(TMDB_API_KEY)]: unset and empty both count as absent. *)
Definition tmdb_configured : bool :=
  match TMDB_API_KEY with
  | Some (String _ _) => true
  | _ => false
  end.

Definition tmdb_key_value : value :=
  match TMDB_API_KEY with
  | Some k => VStr k
  | None => VNone
  end.

(** *** Upstream client *)

Definition make_trakt_request (endpoint : string) (params : option dict)
    (net : http_result) : M value :=
  send {| provider := Trakt; path := endpoint; params := params |} ;;;
  match net with
  | HttpJson v => ret v
  | HttpFailure => ret VNone
  end.

Definition make_tmdb_request (endpoint : string) (params : option dict)
    (net : http_result) : M value :=
  if negb tmdb_configured then ret VNone
  else
    let params := match params with Some p => p | None => [] end in
    let params := dict_set params "api_key" tmdb_key_value in
    send {| provider := Tmdb; path := endpoint; params := Some params |} ;;;
    match net with
    | HttpJson v => ret v
    | HttpFailure => ret VNone
    end.

(** *** Enhancement engine *)

Record enhance_env : Type := {
  stats_call : call;
  ratings_call : call;
  poster_call : call
}.

(** The poster block, the same lines in both enhancement functions:
    [if tmdb_data and tmdb_data.get('results'): ...]. *)
Definition merge_poster (tmdb_data : value) : M unit :=
  found <- (if truthy tmdb_data
            then results <- lift (get_method tmdb_data "results" VNone) ;;
                 ret (truthy results)
            else ret false) ;;
  if found : bool then
    results <- lift (subscript tmdb_data "results") ;;
    first <- lift (index0 results) ;;
    poster_path <- lift (get_method first "poster_path" VNone) ;;
    if truthy poster_path
    then store "posterUrl" (VStr (TMDB_IMAGE_BASE ++ format_value poster_path))
    else ret tt
  else ret tt.

(** [executor.submit(make_tmdb_request, '/search/movie', {...})] guarded
    by [if TMDB_API_KEY:]; [None] stands for [poster_future = None]. *)
Definition submit_poster (movie : value) (c : call) : M (option future) :=
  if tmdb_configured then
    title <- lift (subscript movie "title") ;;
    year <- lift (get_method movie "year" (VStr "")) ;;
    f <- submit (make_tmdb_request "/search/movie"
                   (Some [("query", title); ("year", year)]) (reply c))
                (wait c) ;;
    ret (Some f)
  else ret None.

Definition trakt_id_of (movie : value) : M value :=
  ids <- lift (subscript movie "ids") ;;
  lift (subscript ids "trakt").

(** The [try] block of [enhance_movie_data]. *)
Definition enhance_movie_data_body (movie : value) (env : enhance_env) : M unit :=
  id <- trakt_id_of movie ;;
  stats_future <- submit (make_trakt_request
      ("/movies/" ++ format_value id ++ "/stats") None
      (reply (stats_call env))) (wait (stats_call env)) ;;
  id <- trakt_id_of movie ;;
  ratings_future <- submit (make_trakt_request
      ("/movies/" ++ format_value id ++ "/ratings") None
      (reply (ratings_call env))) (wait (ratings_call env)) ;;
  poster_future <- submit_poster movie (poster_call env) ;;
  stats <- lift (result_within 3 stats_future) ;;
  ratings <- lift (result_within 3 ratings_future) ;;
  (if truthy stats then store "stats" stats else ret tt) ;;;
  (if truthy ratings then store "ratings" ratings else ret tt) ;;;
  match poster_future with
  | Some f =>
      tmdb_data <- lift (result_within 3 f) ;;
      merge_poster tmdb_data
  | None => ret tt
  end.

(** [logger.warning(f"... {movie['title']}: {e}")]. *)
Definition log_warning_title (movie : value) : M unit :=
  _ <- lift (subscript movie "title") ;; ret tt.

Definition enhance_movie_data (movie_item : value) (env : enhance_env) : M value :=
  movie <- lift (subscript movie_item "movie") ;;
  enhanced_item <- lift (copy_method movie_item) ;;
  set_local enhanced_item ;;;
  try_except (enhance_movie_data_body movie env)
             (fun _ => log_warning_title movie) ;;;
  get_local.

(** The [try] block of [enhance_related_movie]. *)
Definition enhance_related_movie_body (movie : value) (env : enhance_env) : M unit :=
  id <- trakt_id_of movie ;;
  ratings_future <- submit (make_trakt_request
      ("/movies/" ++ format_value id ++ "/ratings") None
      (reply (ratings_call env))) (wait (ratings_call env)) ;;
  poster_future <- submit_poster movie (poster_call env) ;;
  ratings <- lift (result_within 2 ratings_future) ;;
  rating <- (if truthy ratings
             then lift (get_method ratings "rating" (VInt 0))
             else ret (VInt 0)) ;;
  store "rating" rating ;;;
  match poster_future with
  | Some f =>
      tmdb_data <- lift (result_within 2 f) ;;
      merge_poster tmdb_data
  | None => ret tt
  end.

Definition enhance_related_movie (movie : value) (env : enhance_env) : M value :=
  enhanced_movie <- lift (copy_method movie) ;;
  set_local enhanced_movie ;;;
  try_except (enhance_related_movie_body movie env)
             (fun _ => log_warning_title movie ;;; store "rating" (VInt 0)) ;;;
  get_local.

(** *** Aggregation endpoints *)

(** What one request meets: the reply to the primary fetch, the secondary
    calls of the entry at each position of the batch, and how long the
    endpoint has to wait for the pool future of that position. *)
Record world : Type := {
  primary : http_result;
  secondary : nat -> enhance_env;
  pool_wait : nat -> nat
}.

(** [[item for item in data if item.get('movie')]]. *)
Fixpoint movie_items (items : list value) : result (list value) :=
  match items with
  | [] => Ok []
  | item :: rest =>
      match get_method item "movie" VNone with
      | Raise e => Raise e
      | Ok tag =>
          match movie_items rest with
          | Raise e => Raise e
          | Ok kept => Ok (if truthy tag then item :: kept else kept)
          end
      end
  end.

(** [[pool.submit(enhance, item) for item in items]]; [i] is the position
    of the first item. *)
Fixpoint pool_submit_all (enhance : value -> enhance_env -> M value)
    (w : world) (i : nat) (items : list value) : M (list future) :=
  match items with
  | [] => ret []
  | item :: rest =>
      f <- submit (enhance item (secondary w i)) (pool_wait w i) ;;
      fs <- pool_submit_all enhance w (S i) rest ;;
      ret (f :: fs)
  end.

(** [for future in futures: try: local.append(future.result(timeout=t))
    except Exception: log]. *)
Fixpoint collect (t : nat) (futures : list future) : M unit :=
  match futures with
  | [] => ret tt
  | f :: rest =>
      try_except (enhanced <- lift (result_within t f) ;; append enhanced)
                 (fun _ => ret tt) ;;;
      collect t rest
  end.

Definition query_arg (query : option string) : string :=
  strip (match query with Some q => q | None => "" end).

Definition search_movies (query : option string) (w : world) : M response :=
  let query := query_arg query in
  if negb (truthy (VStr query))
  then ret (jsonify_with (error_body "Query parameter is required") 400)
  else
    try_except
      (data <- make_trakt_request "/search/movie"
                 (Some [("query", VStr query)]) (primary w) ;;
       if negb (truthy data) then ret (jsonify (VList []))
       else
         items <- lift (iterate data) ;;
         kept <- lift (movie_items items) ;;
         let movies := firstn 10 kept in
         set_local (VList []) ;;;
         futures <- pool_submit_all enhance_movie_data w 0 movies ;;
         collect 5 futures ;;;
         enhanced_movies <- get_local ;;
         ret (jsonify enhanced_movies))
      (fun _ => ret (jsonify_with (error_body "Failed to search movies") 500)).

Definition search_movies_fast (query : option string) (w : world) : M response :=
  let query := query_arg query in
  if negb (truthy (VStr query))
  then ret (jsonify_with (error_body "Query parameter is required") 400)
  else
    try_except
      (data <- make_trakt_request "/search/movie"
                 (Some [("query", VStr query)]) (primary w) ;;
       if negb (truthy data) then ret (jsonify (VList []))
       else
         items <- lift (iterate data) ;;
         kept <- lift (movie_items items) ;;
         let movies := firstn 15 kept in
         ret (jsonify (VList movies)))
      (fun _ => ret (jsonify_with (error_body "Failed to search movies") 500)).

Definition enhance_movie (trakt_id : Z) (w : world) : M response :=
  try_except
    (movie_data <- make_trakt_request
                     ("/movies/" ++ format_value (VInt trakt_id)) None (primary w) ;;
     if negb (truthy movie_data)
     then ret (jsonify_with (error_body "Movie not found") 404)
     else
       let movie_item := VDict [("movie", movie_data)] in
       enhanced <- call_fn (enhance_movie_data movie_item (secondary w 0)) ;;
       ret (jsonify enhanced))
    (fun _ => ret (jsonify_with (error_body "Failed to enhance movie") 500)).

Definition get_movie_details (trakt_id : Z) (w : world) : M response :=
  try_except
    (movie_details <- make_trakt_request
                        ("/movies/" ++ format_value (VInt trakt_id)) None (primary w) ;;
     ret (jsonify movie_details))
    (fun _ => ret (jsonify_with (error_body "Failed to get movie details") 500)).

Definition get_related_movies (trakt_id : Z) (w : world) : M response :=
  try_except
    (related_movies <- make_trakt_request
         ("/movies/" ++ format_value (VInt trakt_id) ++ "/related") None (primary w) ;;
     if negb (truthy related_movies) then ret (jsonify (VList []))
     else
       movies_to_enhance <- lift (slice_to 8 related_movies) ;;
       set_local (VList []) ;;;
       movies <- lift (iterate movies_to_enhance) ;;
       futures <- pool_submit_all enhance_related_movie w 0 movies ;;
       collect 3 futures ;;;
       enhanced_related <- get_local ;;
       ret (jsonify enhanced_related))
    (fun _ => ret (jsonify_with (error_body "Failed to get related movies") 500)).

Definition get_related_movies_fast (trakt_id : Z) (w : world) : M response :=
  try_except
    (related_movies <- make_trakt_request
         ("/movies/" ++ format_value (VInt trakt_id) ++ "/related") None (primary w) ;;
     if negb (truthy related_movies) then ret (jsonify (VList []))
     else
       first <- lift (slice_to 12 related_movies) ;;
       ret (jsonify first))
    (fun _ => ret (jsonify_with (error_body "Failed to get related movies") 500)).

End App.

(** *** Service shell *)

(** [bool(key)] for a key read with [os.getenv]. *)
Definition key_set (key : option string) : bool :=
  match key with
  | Some (String _ _) => true
  | _ => false
  end.

(** Loading the module: [if not TRAKT_API_KEY: raise ValueError(...)]. *)
Inductive startup : Type :=
| Started
| StartupValueError (message : string).

Definition validate_environment (trakt_key : option string) : startup :=
  if negb (key_set trakt_key)
  then StartupValueError "TRAKT_API_KEY environment variable is required"
  else Started.

Definition health_check (trakt_key tmdb_key : option string) : response :=
  jsonify (VDict [("status", VStr "healthy");
                  ("trakt_api_configured", VBool (key_set trakt_key));
                  ("tmdb_api_configured", VBool (key_set tmdb_key));
                  ("optimization", VStr "enabled")]).

(** [@app.errorhandler(404)] and [@app.errorhandler(500)]. *)
Definition not_found : response :=
  jsonify_with (error_body "Endpoint not found") 404.

Definition internal_error : response :=
  jsonify_with (error_body "Internal server error") 500.

(** ** Vocabulary of the statements *)

(** What the upstream client hands back for a reply: the body, or [None]. *)
Definition fetched (net : http_result) : value :=
  match net with
  | HttpJson v => v
  | HttpFailure => VNone
  end.

(** The future of call [c] answers within [t] time units. *)
Definition on_time (t : nat) (c : call) : bool := Nat.leb (wait c) t.

(** The field [k] of a record, if the record has it. *)
Definition lookup (v : value) (k : string) : option value :=
  match v with
  | VDict d => dict_get d k
  | _ => None
  end.

Definition is_dict (v : value) : bool :=
  match v with
  | VDict _ => true
  | _ => false
  end.

(** An entry of the search response tagged as a movie: a dictionary whose
    ['movie'] is truthy. *)
Definition movie_tagged (item : value) : bool :=
  match lookup item "movie" with
  | Some tag => is_dict item && truthy tag
  | None => false
  end.

(** [movie['ids']['trakt']] is there. *)
Definition has_trakt_id (movie : value) : bool :=
  match lookup movie "ids" with
  | Some ids => has_key ids "trakt"
  | None => false
  end.

(** The control flow of the poster block without its assignment: the poster
    path to use, none, or the exception of a body of another shape. *)
Definition poster_lookup (tmdb_data : value) : result (option value) :=
  if truthy tmdb_data then
    match get_method tmdb_data "results" VNone with
    | Raise e => Raise e
    | Ok results =>
        if truthy results then
          match index0 results with
          | Raise e => Raise e
          | Ok first =>
              match get_method first "poster_path" VNone with
              | Raise e => Raise e
              | Ok poster_path =>
                  Ok (if truthy poster_path then Some poster_path else None)
              end
          end
        else Ok None
    end
  else Ok None.

(** Both enhancement functions get as far as waiting for their futures
    when the identifier is there and, with an image-provider key, the title
    too. *)
Definition reaches_waits (key : option string) (movie : value) : bool :=
  has_trakt_id movie && (negb (tmdb_configured key) || has_key movie "title").

(** The poster field added to [d], if the poster future answers in time
    with a usable body. *)
Definition with_poster (fmt : value -> string) (t : nat) (c : call) (d : dict) : dict :=
  if on_time t c then
    match poster_lookup (fetched (reply c)) with
    | Ok (Some p) => dict_set d "posterUrl" (VStr (TMDB_IMAGE_BASE ++ fmt p))
    | _ => d
    end
  else d.

(** Closed form of the record [enhance_movie_data] leaves for the entry
    [d] with movie [movie]; [enhance_movie_data_returns] proves it. *)
Definition merged_record (fmt : value -> string) (key : option string)
    (d : dict) (movie : value) (env : enhance_env) : dict :=
  if reaches_waits key movie
     && on_time 3 (stats_call env) && on_time 3 (ratings_call env)
  then
    let stats := fetched (reply (stats_call env)) in
    let ratings := fetched (reply (ratings_call env)) in
    let d1 := if truthy stats then dict_set d "stats" stats else d in
    let d2 := if truthy ratings then dict_set d1 "ratings" ratings else d1 in
    if tmdb_configured key then with_poster fmt 3 (poster_call env) d2 else d2
  else d.

(** [ratings.get('rating', 0) if ratings else 0]. *)
Definition rating_of (ratings : value) : result value :=
  if truthy ratings then get_method ratings "rating" (VInt 0) else Ok (VInt 0).

(** Closed form of the record [enhance_related_movie] leaves for the movie
    [m]; [enhance_related_movie_returns] proves it. *)
Definition related_record (fmt : value -> string) (key : option string)
    (m : dict) (env : enhance_env) : dict :=
  if reaches_waits key (VDict m) && on_time 2 (ratings_call env) then
    match rating_of (fetched (reply (ratings_call env))) with
    | Raise _ => dict_set m "rating" (VInt 0)
    | Ok rating =>
        let d1 := dict_set m "rating" rating in
        if tmdb_configured key then
          if on_time 2 (poster_call env) then
            match poster_lookup (fetched (reply (poster_call env))) with
            | Ok (Some p) =>
                dict_set d1 "posterUrl" (VStr (TMDB_IMAGE_BASE ++ fmt p))
            | Ok None => d1
            | Raise _ => dict_set d1 "rating" (VInt 0)
            end
          else dict_set d1 "rating" (VInt 0)
        else d1
    end
  else dict_set m "rating" (VInt 0).


(** The items of a batch with their positions, counted from [i]. *)
Fixpoint indexed (i : nat) (items : list value) : list (nat * value) :=
  match items with
  | [] => []
  | item :: rest => (i, item) :: indexed (S i) rest
  end.

(** A formatter for closed examples: strings as they are and integers in
    decimal, as Python prints both. *)
Definition format_plain (v : value) : string :=
  match v with
  | VStr s => s
  | VInt z => NilZero.string_of_int (Z.to_int z)
  | _ => ""
  end.

(** The futures of a batch, as [pool_submit_all] creates them. *)
Fixpoint pool_futures (enhance : value -> enhance_env -> M value)
    (w : world) (i : nat) (items : list value) : list future :=
  match items with
  | [] => []
  | item :: rest =>
      {| produced := fst (run (enhance item (secondary w i)));
         delay := pool_wait w i |} :: pool_futures enhance w (S i) rest
  end.

(** What [collect] appends: the records of the futures that hand one over
    within [t] time units, in the order of the futures. *)
Fixpoint arrived (t : nat) (futures : list future) : list value :=
  match futures with
  | [] => []
  | f :: rest =>
      match result_within t f with
      | Ok enhanced => enhanced :: arrived t rest
      | Raise _ => arrived t rest
      end
  end.

(** The pool future of the item at position [fst p] hands over [r] in
    time: [r] is the enhancement of the item [snd p]. *)
Definition returned (enhance : value -> enhance_env -> M value) (w : world)
    (t : nat) (p : nat * value) (r : value) : Prop :=
  pool_wait w (fst p) <= t /\
  fst (run (enhance (snd p) (secondary w (fst p)))) = Ok r.


(** The result of a computation and the object it leaves, without the
    requests. *)
Definition view {A} (o : outcome A) : result A * value := (res o, final o).

(** A response body every entry of which is an object. *)
Definition list_of_objects (v : value) : bool :=
  match v with
  | VList items => forallb is_dict items
  | _ => false
  end.

(** A computation sends at most [n] requests. *)
Definition sends_at_most {A} (n : nat) (m : M A) : Prop :=
  forall l, length (emitted (m l)) <= n.

(** A request to the catalog provider carries no parameter of the image
    provider: none at all, or the search query only. *)
Definition trakt_params_clean (rq : request) : Prop :=
  provider rq = Trakt ->
  match params rq with
  | None => True
  | Some p => dict_get p "api_key" = None
  end.

(** A request to the image provider carries the key [k]. *)
Definition tmdb_carries_key (k : string) (rq : request) : Prop :=
  provider rq = Tmdb ->
  exists p, params rq = Some p /\ dict_get p "api_key" = Some (VStr k).

(** Every request a computation sends satisfies [P]. *)
Definition sends {A} (P : request -> Prop) (m : M A) : Prop :=
  forall l, Forall P (emitted (m l)).

Definition to_trakt (rq : request) : Prop := provider rq = Trakt.

(** *** Sample data for the closed examples *)

Definition sample_movie_fields : dict :=
  [("title", VStr "Batman"); ("year", VInt 1989);
   ("ids", VDict [("trakt", VInt 101)])].

Definition sample_movie : value := VDict sample_movie_fields.

Definition sample_item_fields : dict :=
  [("type", VStr "movie"); ("score", VInt 1000); ("movie", sample_movie)].

Definition sample_item : value := VDict sample_item_fields.

Definition sample_stats : value := VDict [("watchers", VInt 5)].

Definition sample_ratings : value :=
  VDict [("rating", VFloat (Qmake 15 2)); ("votes", VInt 10)].

Definition sample_tmdb : value :=
  VDict [("results", VList [VDict [("poster_path", VStr "/p.jpg")]])].

(** A call answered at once, and one answered after every timeout. *)
Definition prompt (v : value) : call := {| reply := HttpJson v; wait := 1 |}.
Definition late (v : value) : call := {| reply := HttpJson v; wait := 9 |}.

Definition all_prompt : enhance_env :=
  {| stats_call := prompt sample_stats;
     ratings_call := prompt sample_ratings;
     poster_call := prompt sample_tmdb |}.

Definition ratings_late : enhance_env :=
  {| stats_call := prompt sample_stats;
     ratings_call := late sample_ratings;
     poster_call := prompt sample_tmdb |}.

Definition poster_late : enhance_env :=
  {| stats_call := prompt sample_stats;
     ratings_call := prompt sample_ratings;
     poster_call := late sample_tmdb |}.

(** A search response of twelve movie entries, and one entry that is not
    tagged as a movie. *)
Definition twelve_items : list value := repeat sample_item 12.

Definition untagged_item : value := VDict [("type", VStr "person")].

(** Every secondary call answers at once; the pool future of position 0
    keeps the endpoint waiting beyond its timeout. *)
Definition first_future_late (data : list value) : world :=
  {| primary := HttpJson (VList data);
     secondary := fun _ => all_prompt;
     pool_wait := fun i => match i with O => 9 | S _ => 1 end |}.

Definition all_in_time (data : list value) : world :=
  {| primary := HttpJson (VList data);
     secondary := fun _ => all_prompt;
     pool_wait := fun _ => 1 |}.

Definition nothing_found : world :=
  {| primary := HttpFailure;
     secondary := fun _ => all_prompt;
     pool_wait := fun _ => 1 |}.

(** ** Facts about dictionaries *)

Lemma dict_get_set_same (d : dict) (k : string) (v : value) :
  dict_get (dict_set d k v) k = Some v.
Proof.
  induction d as [|[k' v'] rest IH]; simpl.
  - now rewrite String.eqb_refl.
  - destruct (String.eqb k' k) eqn:E; simpl; rewrite E; auto.
Qed.

Lemma dict_get_set_other (d : dict) (k k' : string) (v : value) :
  k' <> k -> dict_get (dict_set d k v) k' = dict_get d k'.
Proof.
  intros Hne. induction d as [|[k0 v0] rest IH]; simpl.
  - destruct (String.eqb k k') eqn:E; auto.
    apply String.eqb_eq in E. congruence.
  - destruct (String.eqb k0 k) eqn:E; simpl.
    + apply String.eqb_eq in E. subst k0.
      destruct (String.eqb k k') eqn:E'; auto.
      apply String.eqb_eq in E'. congruence.
    + destruct (String.eqb k0 k'); auto.
Qed.

(** ** Stepping through a computation

    Most statements are about the result and the mutated object only; the
    list of requests is looked at separately. *)

Lemma view_after A out (o : outcome A) : view (after out o) = view o.
Proof. destruct o; reflexivity. Qed.

Lemma view_bind A B (m : M A) (k : A -> M B) l :
  view (bind m k l) =
  match view (m l) with
  | (Ok a, l') => view (k a l')
  | (Raise e, l') => (Raise e, l')
  end.
Proof.
  unfold bind. destruct (m l) as [[a|e] l' out]; cbn - [after].
  - apply view_after.
  - reflexivity.
Qed.

Lemma view_try_except A (b : M A) (h : exn -> M A) l :
  view (try_except b h l) =
  match view (b l) with
  | (Ok a, l') => (Ok a, l')
  | (Raise e, l') => view (h e l')
  end.
Proof.
  unfold try_except. destruct (b l) as [[a|e] l' out]; cbn - [after].
  - reflexivity.
  - apply view_after.
Qed.

Lemma view_lift A (r : result A) l : view (lift r l) = (r, l).
Proof. reflexivity. Qed.

Lemma view_ret A (a : A) l : view (ret a l) = (Ok a, l).
Proof. reflexivity. Qed.

Lemma view_get_local l : view (get_local l) = (Ok l, l).
Proof. reflexivity. Qed.

Lemma view_set_local v l : view (set_local v l) = (Ok tt, v).
Proof. reflexivity. Qed.

Lemma view_store k v d :
  view (store k v (VDict d)) = (Ok tt, VDict (dict_set d k v)).
Proof. reflexivity. Qed.

Lemma view_send r l : view (send r l) = (Ok tt, l).
Proof. reflexivity. Qed.

Lemma run_view A (m : M A) : fst (run m) = fst (view (m VNone)).
Proof. unfold run. destruct (m VNone); reflexivity. Qed.

Lemma view_in_frame A (m : M A) l : view (in_frame m l) = (Ok (fst (run m)), l).
Proof. unfold in_frame. destruct (run m); reflexivity. Qed.

Lemma view_submit task d l :
  view (submit task d l) = (Ok {| produced := fst (run task); delay := d |}, l).
Proof. unfold submit. now rewrite view_bind, view_in_frame. Qed.

Lemma run_make_trakt_request p ps net :
  fst (run (make_trakt_request p ps net)) = Ok (fetched net).
Proof.
  rewrite run_view. unfold make_trakt_request.
  rewrite view_bind, view_send. destruct net; reflexivity.
Qed.

Lemma run_make_tmdb_request key p ps net :
  fst (run (make_tmdb_request key p ps net)) =
  Ok (if tmdb_configured key then fetched net else VNone).
Proof.
  rewrite run_view. unfold make_tmdb_request.
  destruct (tmdb_configured key); cbn [negb].
  - rewrite view_bind, view_send. destruct net; reflexivity.
  - reflexivity.
Qed.

Create Rewrite HintDb view.
#[local] Hint Rewrite view_bind view_try_except view_lift view_ret
  view_get_local view_set_local view_store view_send view_in_frame
  view_submit run_make_trakt_request run_make_tmdb_request : view.

Ltac steps :=
  repeat (progress (autorewrite with view;
                    cbn [fst snd delay produced andb orb negb])).

(** The same, also rewriting with the case equations gathered so far. *)
Ltac go :=
  repeat (progress (autorewrite with view;
                    cbn [fst snd delay produced andb orb negb];
                    repeat match goal with
                           | H : _ = _ |- _ => rewrite H
                           end)).

Lemma view_merge_poster fmt tmdb_data d :
  view (merge_poster fmt tmdb_data (VDict d)) =
  match poster_lookup tmdb_data with
  | Ok (Some p) =>
      (Ok tt, VDict (dict_set d "posterUrl" (VStr (TMDB_IMAGE_BASE ++ fmt p))))
  | Ok None => (Ok tt, VDict d)
  | Raise e => (Raise e, VDict d)
  end.
Proof.
  unfold merge_poster, poster_lookup. steps.
  destruct (truthy tmdb_data) eqn:Ht; steps; [|reflexivity].
  destruct tmdb_data as [| | | | |items|entries]; try reflexivity.
  cbn [get_method subscript].
  destruct (dict_get entries "results") as [results|]; steps; [|reflexivity].
  destruct (truthy results); steps; [|reflexivity].
  destruct (index0 results) as [first|e]; steps; [|reflexivity].
  destruct (get_method first "poster_path" VNone) as [p|e]; steps; [|reflexivity].
  destruct (truthy p); steps; reflexivity.
Qed.

(** ** The enhancement functions in closed form *)

Lemma subscript_lookup (v : value) (k : string) :
  subscript v k =
  match lookup v k with
  | Some x => Ok x
  | None => Raise (if is_dict v then KeyError else TypeError)
  end.
Proof. destruct v; reflexivity. Qed.

Lemma has_key_lookup (v : value) (k : string) :
  has_key v k = match lookup v k with Some _ => true | None => false end.
Proof. destruct v; reflexivity. Qed.

Lemma get_method_dict (d : dict) (k : string) (default : value) :
  get_method (VDict d) k default =
  Ok match dict_get d k with Some x => x | None => default end.
Proof. simpl. now destruct (dict_get d k). Qed.

Lemma view_log_warning_title (movie l : value) :
  view (log_warning_title movie l) =
  (match subscript movie "title" with Ok _ => Ok tt | Raise e => Raise e end, l).
Proof.
  unfold log_warning_title. steps. now destruct (subscript movie "title").
Qed.

Lemma view_submit_poster key movie c l :
  view (submit_poster key movie c l) =
  if tmdb_configured key then
    match lookup movie "title" with
    | Some _ =>
        (Ok (Some {| produced := Ok (fetched (reply c)); delay := wait c |}), l)
    | None => (Raise (if is_dict movie then KeyError else TypeError), l)
    end
  else (Ok None, l).
Proof.
  unfold submit_poster. destruct (tmdb_configured key) eqn:Hk; steps; [|reflexivity].
  rewrite subscript_lookup.
  destruct movie as [| | | | | |m]; try reflexivity.
  cbn [lookup]. destruct (dict_get m "title") as [title|]; [|reflexivity].
  rewrite get_method_dict. steps. now rewrite Hk.
Qed.

Lemma view_trakt_id_of movie l :
  view (trakt_id_of movie l) =
  (match subscript movie "ids" with
   | Ok ids => subscript ids "trakt"
   | Raise e => Raise e
   end, l).
Proof.
  unfold trakt_id_of. steps. now destruct (subscript movie "ids").
Qed.

Lemma trakt_id_of_has_trakt_id movie :
  has_trakt_id movie =
  match (match subscript movie "ids" with
         | Ok ids => subscript ids "trakt"
         | Raise e => Raise e
         end) with
  | Ok _ => true
  | Raise _ => false
  end.
Proof.
  unfold has_trakt_id. rewrite subscript_lookup.
  destruct (lookup movie "ids") as [ids|]; [|reflexivity].
  rewrite subscript_lookup, has_key_lookup. now destruct (lookup ids "trakt").
Qed.

#[local] Hint Rewrite view_log_warning_title view_submit_poster
  view_trakt_id_of view_merge_poster : view.

Create Rewrite HintDb frame.
#[local] Hint Rewrite view_bind view_lift view_ret view_get_local
  view_set_local : frame.

(** Steps that stop in front of a [try]. *)
Ltac outer_steps :=
  repeat (progress (autorewrite with frame; cbn [fst snd])).

Ltac caught :=
  go; rewrite ?subscript_lookup; go;
  eexists; split; [ reflexivity | intro; reflexivity || discriminate ].

Ltac split_on t := destruct t eqn:?; go; try solve [caught].

Lemma view_enhance_movie_data_try fmt key d movie env :
  exists r0,
    view (try_except (enhance_movie_data_body fmt key movie env)
                     (fun _ => log_warning_title movie) (VDict d)) =
    (r0, VDict (merged_record fmt key d movie env))
    /\ (has_key movie "title" = true -> r0 = Ok tt).
Proof.
  unfold enhance_movie_data_body, merged_record, reaches_waits, with_poster,
    on_time, result_within.
  rewrite (has_key_lookup movie "title"), trakt_id_of_has_trakt_id.
  split_on (lookup movie "title").
  all: split_on (match subscript movie "ids" with
                 | Ok ids => subscript ids "trakt"
                 | Raise e => Raise e
                 end).
  all: split_on (tmdb_configured key).
  all: split_on (Nat.leb (wait (stats_call env)) 3).
  all: split_on (Nat.leb (wait (ratings_call env)) 3).
  all: split_on (truthy (fetched (reply (stats_call env)))).
  all: split_on (truthy (fetched (reply (ratings_call env)))).
  all: split_on (Nat.leb (wait (poster_call env)) 3).
  all: split_on (poster_lookup (fetched (reply (poster_call env)))).
  all: match goal with
       | |- context [match ?x with Some _ => _ | None => _ end] => destruct x
       end; caught.
Qed.

Lemma enhance_movie_data_returns fmt key d movie env :
  dict_get d "movie" = Some movie ->
  has_key movie "title" = true ->
  fst (run (enhance_movie_data fmt key (VDict d) env)) =
  Ok (VDict (merged_record fmt key d movie env)).
Proof.
  intros Hm Ht. rewrite run_view. unfold enhance_movie_data.
  cbn [subscript copy_method]. rewrite Hm. outer_steps.
  destruct (view_enhance_movie_data_try fmt key d movie env) as (r0 & -> & Hr).
  rewrite (Hr Ht). outer_steps. reflexivity.
Qed.

Lemma enhance_movie_data_inv fmt key item env r :
  fst (run (enhance_movie_data fmt key item env)) = Ok r ->
  exists d movie,
    item = VDict d /\ dict_get d "movie" = Some movie /\
    r = VDict (merged_record fmt key d movie env).
Proof.
  rewrite run_view. unfold enhance_movie_data. outer_steps.
  destruct item as [| | | | | |d]; try discriminate.
  cbn [subscript copy_method].
  destruct (dict_get d "movie") as [movie|] eqn:Hm; [|discriminate].
  outer_steps.
  destruct (view_enhance_movie_data_try fmt key d movie env) as (r0 & -> & _).
  destruct r0; outer_steps; [|discriminate].
  intros [= <-]. eauto.
Qed.

Ltac caught_related :=
  go; rewrite ?subscript_lookup; go;
  do 2 eexists; split; [ reflexivity | ];
  split; [ intro; reflexivity || discriminate | ];
  split; [ intro; reflexivity || discriminate | ];
  intros ? ? ?; (discriminate || (cbn [lookup]; apply dict_get_set_same)).

Ltac split_related t := destruct t eqn:?; go; try solve [caught_related].

Lemma view_enhance_related_movie_try fmt key m env :
  exists r0 l',
    view (try_except (enhance_related_movie_body fmt key (VDict m) env)
            (fun _ => log_warning_title (VDict m) ;;; store "rating" (VInt 0))
            (VDict m)) = (r0, l')
    /\ (r0 = Ok tt -> l' = VDict (related_record fmt key m env))
    /\ (has_key (VDict m) "title" = true -> r0 = Ok tt)
    /\ (has_key (VDict m) "title" = true ->
        forall e,
          fst (view (enhance_related_movie_body fmt key (VDict m) env (VDict m)))
          = Raise e ->
          lookup l' "rating" = Some (VInt 0)).
Proof.
  unfold enhance_related_movie_body, related_record, reaches_waits, rating_of,
    on_time, result_within.
  rewrite (has_key_lookup (VDict m) "title"), trakt_id_of_has_trakt_id.
  split_related (lookup (VDict m) "title").
  all: split_related (match subscript (VDict m) "ids" with
                      | Ok ids => subscript ids "trakt"
                      | Raise e => Raise e
                      end).
  all: split_related (tmdb_configured key).
  all: split_related (Nat.leb (wait (ratings_call env)) 2).
  all: split_related (truthy (fetched (reply (ratings_call env)))).
  all: try split_related (get_method (fetched (reply (ratings_call env)))
                            "rating" (VInt 0)).
  all: split_related (Nat.leb (wait (poster_call env)) 2).
  all: split_related (poster_lookup (fetched (reply (poster_call env)))).
  all: match goal with
       | |- context [match ?x with Some _ => _ | None => _ end] => destruct x
       end; caught_related.
Qed.

Lemma enhance_related_movie_returns fmt key m env :
  has_key (VDict m) "title" = true ->
  fst (run (enhance_related_movie fmt key (VDict m) env)) =
  Ok (VDict (related_record fmt key m env)).
Proof.
  intros Ht. rewrite run_view. unfold enhance_related_movie.
  cbn [copy_method]. outer_steps.
  destruct (view_enhance_related_movie_try fmt key m env)
    as (r0 & l' & -> & Hl & Hr & _).
  rewrite (Hr Ht) in *. outer_steps. now rewrite Hl.
Qed.

Lemma enhance_related_movie_inv fmt key movie env r :
  fst (run (enhance_related_movie fmt key movie env)) = Ok r ->
  exists m, movie = VDict m /\ r = VDict (related_record fmt key m env).
Proof.
  rewrite run_view. unfold enhance_related_movie. outer_steps.
  destruct movie as [| | | | |items|m]; try discriminate; cbn [copy_method];
    outer_steps.
  destruct (view_enhance_related_movie_try fmt key m env)
    as (r0 & l' & -> & Hl & _ & _).
  destruct r0 as [[]|e]; outer_steps; [|discriminate].
  intros [= <-]. exists m. now rewrite Hl.
Qed.

(** ** Per-movie enhancement: the claims *)

Ltac dict_simpl :=
  repeat first [ rewrite dict_get_set_same
               | rewrite dict_get_set_other by discriminate ].

(** C1, as amended.  For an entry with its movie, title and identifier,
    [enhance_movie_data] always hands the record back and raises nothing.
    Whenever the stats and ratings futures answer in time, each of the
    three fields is decided by its own call alone: a call that failed (the
    client returned [None]) or a poster future that timed out leaves out
    that field only, and every other fetched field is merged. *)
Theorem C1_failed_call_leaves_out_its_field_only
    (fmt : value -> string) (key : option string)
    (d : dict) (movie : value) (env : enhance_env) :
  dict_get d "movie" = Some movie ->
  has_key movie "title" = true ->
  has_trakt_id movie = true ->
  exists r,
    fst (run (enhance_movie_data fmt key (VDict d) env)) = Ok r /\
    (on_time 3 (stats_call env) = true ->
     on_time 3 (ratings_call env) = true ->
     let stats := fetched (reply (stats_call env)) in
     let ratings := fetched (reply (ratings_call env)) in
     lookup r "stats" = (if truthy stats then Some stats else dict_get d "stats") /\
     lookup r "ratings" =
       (if truthy ratings then Some ratings else dict_get d "ratings") /\
     lookup r "posterUrl" =
       (if tmdb_configured key && on_time 3 (poster_call env) then
          match poster_lookup (fetched (reply (poster_call env))) with
          | Ok (Some p) => Some (VStr (TMDB_IMAGE_BASE ++ fmt p))
          | _ => dict_get d "posterUrl"
          end
        else dict_get d "posterUrl")).
Proof.
  intros Hm Ht Hid. eexists. split.
  - apply (enhance_movie_data_returns fmt key d movie env Hm Ht).
  - intros Hs Hr. cbn zeta. cbn [lookup].
    unfold merged_record, reaches_waits, with_poster.
    rewrite Hid, Ht, Hs, Hr, orb_true_r. cbn [andb].
    destruct (truthy (fetched (reply (stats_call env))));
      destruct (truthy (fetched (reply (ratings_call env))));
      destruct (tmdb_configured key); cbn [andb];
      try destruct (on_time 3 (poster_call env));
      try destruct (poster_lookup (fetched (reply (poster_call env))))
        as [[p|]|e];
      dict_simpl; auto.
Qed.

Lemma C1_witness :
  exists r,
    fst (run (enhance_movie_data format_plain (Some "k") sample_item poster_late))
    = Ok r /\
    lookup r "stats" = Some sample_stats /\
    lookup r "ratings" = Some sample_ratings /\
    lookup r "posterUrl" = None.
Proof.
  destruct (C1_failed_call_leaves_out_its_field_only format_plain (Some "k")
              sample_item_fields sample_movie poster_late)
    as (r & Hrun & Hfields); try reflexivity.
  exists r. split; [exact Hrun|]. apply Hfields; reflexivity.
Defined.

(** C1 as stated fails: the stats call answered in time with a body, only
    the ratings future timed out, and the record comes back without its
    stats (and without its poster). *)
Lemma C1_counterexample :
  on_time 3 (stats_call ratings_late) = true /\
  truthy (fetched (reply (stats_call ratings_late))) = true /\
  on_time 3 (ratings_call ratings_late) = false /\
  on_time 3 (poster_call ratings_late) = true /\
  exists r,
    fst (run (enhance_movie_data format_plain (Some "k") sample_item ratings_late))
    = Ok r /\
    lookup r "stats" = None /\ lookup r "posterUrl" = None.
Proof.
  repeat split. exists sample_item. repeat split.
Qed.


(** C4.  When the ratings future times out, [enhance_movie_data] hands the
    entry back without a ['ratings'] key and [enhance_related_movie] hands
    the movie back with [rating] set to 0; and whenever the [try] block of
    [enhance_related_movie] raises, whatever the exception, the record comes
    back with [rating] set to 0. *)
Theorem C4_ratings_timeout_omits_or_zeroes
    (fmt : value -> string) (key : option string)
    (d : dict) (movie : value) (m : dict) (env : enhance_env) :
  dict_get d "movie" = Some movie ->
  has_key movie "title" = true ->
  dict_get d "ratings" = None ->
  has_key (VDict m) "title" = true ->
  (on_time 3 (ratings_call env) = false ->
   exists r,
     fst (run (enhance_movie_data fmt key (VDict d) env)) = Ok r /\
     lookup r "ratings" = None) /\
  (on_time 2 (ratings_call env) = false ->
   exists r,
     fst (run (enhance_related_movie fmt key (VDict m) env)) = Ok r /\
     lookup r "rating" = Some (VInt 0)) /\
  (forall e,
     res (enhance_related_movie_body fmt key (VDict m) env (VDict m)) = Raise e ->
     exists r,
       fst (run (enhance_related_movie fmt key (VDict m) env)) = Ok r /\
       lookup r "rating" = Some (VInt 0)).
Proof.
  intros Hm Ht Hno Htm. repeat split.
  - intros Hlate. eexists. split.
    + apply (enhance_movie_data_returns fmt key d movie env Hm Ht).
    + cbn [lookup]. unfold merged_record. rewrite Hlate, andb_false_r.
      exact Hno.
  - intros Hlate. eexists. split.
    + apply (enhance_related_movie_returns fmt key m env Htm).
    + cbn [lookup]. unfold related_record. rewrite Hlate, andb_false_r.
      apply dict_get_set_same.
  - intros e He.
    destruct (view_enhance_related_movie_try fmt key m env)
      as (r0 & l' & Hview & Hl & Hr & Hzero).
    exists l'. split.
    + rewrite run_view. unfold enhance_related_movie.
      cbn [copy_method]. outer_steps. rewrite Hview, (Hr Htm).
      outer_steps. reflexivity.
    + apply (Hzero Htm e). exact He.
Qed.

Lemma C4_witness :
  (exists r,
     fst (run (enhance_movie_data format_plain (Some "k") sample_item ratings_late))
     = Ok r /\ lookup r "ratings" = None) /\
  (exists r,
     fst (run (enhance_related_movie format_plain (Some "k") sample_movie
                 ratings_late)) = Ok r /\
     lookup r "rating" = Some (VInt 0)).
Proof.
  destruct (C4_ratings_timeout_omits_or_zeroes format_plain (Some "k")
              sample_item_fields sample_movie sample_movie_fields ratings_late)
    as (Hdata & Hrelated & _); try reflexivity.
  split; [apply Hdata | apply Hrelated]; reflexivity.
Defined.

(** ** Requests sent *)

Lemma sends_ret A P (a : A) : sends P (ret a).
Proof. intros l. constructor. Qed.

Lemma sends_lift A P (r : result A) : sends P (lift r).
Proof. intros l. constructor. Qed.

Lemma sends_get_local P : sends P get_local.
Proof. intros l. constructor. Qed.

Lemma sends_set_local P v : sends P (set_local v).
Proof. intros l. constructor. Qed.

Lemma sends_store P k v : sends P (store k v).
Proof. intros l. unfold store. destruct (setitem l k v); constructor. Qed.

Lemma sends_append P v : sends P (append v).
Proof. intros l. unfold append. destruct l; constructor. Qed.

Lemma sends_send (P : request -> Prop) rq : P rq -> sends P (send rq).
Proof. intros H l. repeat constructor. exact H. Qed.

Lemma emitted_after A out (o : outcome A) :
  emitted (after out o) = out ++ emitted o.
Proof. destruct o; reflexivity. Qed.

Lemma sends_bind A B P (m : M A) (k : A -> M B) :
  sends P m -> (forall a, sends P (k a)) -> sends P (bind m k).
Proof.
  intros Hm Hk l. unfold bind. specialize (Hm l).
  destruct (m l) as [[a|e] l' out]; cbn [emitted] in *.
  - rewrite emitted_after. apply Forall_app. split; [exact Hm | apply Hk].
  - exact Hm.
Qed.

Lemma sends_try_except A P (b : M A) (h : exn -> M A) :
  sends P b -> (forall e, sends P (h e)) -> sends P (try_except b h).
Proof.
  intros Hb Hh l. unfold try_except. specialize (Hb l).
  destruct (b l) as [[a|e] l' out]; cbn [emitted] in *.
  - exact Hb.
  - rewrite emitted_after. apply Forall_app. split; [exact Hb | apply Hh].
Qed.

Lemma sends_run A P (m : M A) : sends P m -> Forall P (snd (run m)).
Proof. intros H. unfold run. specialize (H VNone). now destruct (m VNone). Qed.

Lemma sends_in_frame A P (m : M A) : sends P m -> sends P (in_frame m).
Proof.
  intros H l. unfold in_frame. apply sends_run in H.
  destruct (run m). exact H.
Qed.

Lemma sends_submit P task d : sends P task -> sends P (submit task d).
Proof.
  intros H. unfold submit. apply sends_bind.
  - now apply sends_in_frame.
  - intros. apply sends_ret.
Qed.

Ltac sends_steps :=
  repeat first
    [ solve [auto]
    | apply sends_ret | apply sends_lift | apply sends_get_local
    | apply sends_set_local | apply sends_store | apply sends_append
    | apply sends_send; reflexivity
    | apply sends_submit | apply sends_in_frame
    | apply sends_try_except; [|intro]
    | apply sends_bind; [|intro]
    | match goal with
      | |- sends _ (if ?b then _ else _) => destruct b
      | |- sends _ (match ?x with _ => _ end) => destruct x
      end ].

Lemma sends_make_trakt_request p ps net :
  sends to_trakt (make_trakt_request p ps net).
Proof. unfold make_trakt_request. sends_steps. Qed.

Lemma sends_merge_poster P fmt tmdb_data : sends P (merge_poster fmt tmdb_data).
Proof. unfold merge_poster. sends_steps. Qed.

Lemma sends_submit_poster_no_key key movie c :
  tmdb_configured key = false -> sends to_trakt (submit_poster key movie c).
Proof. intros Hk. unfold submit_poster. rewrite Hk. apply sends_ret. Qed.

Lemma sends_enhance_movie_data_no_key fmt key item env :
  tmdb_configured key = false ->
  sends to_trakt (enhance_movie_data fmt key item env).
Proof.
  intros Hk. unfold enhance_movie_data, enhance_movie_data_body, trakt_id_of,
    log_warning_title.
  pose proof sends_make_trakt_request. pose proof sends_merge_poster.
  pose proof (fun movie c => sends_submit_poster_no_key key movie c Hk).
  sends_steps.
Qed.

Lemma sends_enhance_related_movie_no_key fmt key movie env :
  tmdb_configured key = false ->
  sends to_trakt (enhance_related_movie fmt key movie env).
Proof.
  intros Hk. unfold enhance_related_movie, enhance_related_movie_body,
    trakt_id_of, log_warning_title.
  pose proof sends_make_trakt_request. pose proof sends_merge_poster.
  pose proof (fun movie c => sends_submit_poster_no_key key movie c Hk).
  sends_steps.
Qed.

(** C5.  Without an image-provider key (unset or empty),
    [make_tmdb_request] returns [None] and sends nothing; neither
    enhancement function sends a request to the image provider, and a record
    either of them produces for an entry that carried no ['posterUrl'] has
    none.  Entries with their title do get a record back. *)
Theorem C5_no_key_no_poster (fmt : value -> string) (key : option string) :
  tmdb_configured key = false ->
  (forall endpoint params net,
     run (make_tmdb_request key endpoint params net) = (Ok VNone, [])) /\
  (forall item env r,
     fst (run (enhance_movie_data fmt key item env)) = Ok r ->
     has_key item "posterUrl" = false -> has_key r "posterUrl" = false) /\
  (forall movie env r,
     fst (run (enhance_related_movie fmt key movie env)) = Ok r ->
     has_key movie "posterUrl" = false -> has_key r "posterUrl" = false) /\
  (forall item env,
     Forall to_trakt (snd (run (enhance_movie_data fmt key item env)))) /\
  (forall movie env,
     Forall to_trakt (snd (run (enhance_related_movie fmt key movie env)))) /\
  (forall d movie env,
     dict_get d "movie" = Some movie -> has_key movie "title" = true ->
     exists r, fst (run (enhance_movie_data fmt key (VDict d) env)) = Ok r) /\
  (forall m env,
     has_key (VDict m) "title" = true ->
     exists r, fst (run (enhance_related_movie fmt key (VDict m) env)) = Ok r).
Proof.
  intros Hk. repeat apply conj.
  - intros endpoint ps net. unfold run, make_tmdb_request. now rewrite Hk.
  - intros item env r Hrun.
    destruct (enhance_movie_data_inv _ _ _ _ _ Hrun) as (d & movie & -> & _ & ->).
    rewrite !has_key_lookup. cbn [lookup].
    replace (dict_get (merged_record fmt key d movie env) "posterUrl")
      with (dict_get d "posterUrl"); [auto|].
    unfold merged_record. rewrite Hk.
    destruct (_ && _); [|reflexivity]. cbn zeta.
    destruct (truthy (fetched (reply (stats_call env))));
      destruct (truthy (fetched (reply (ratings_call env))));
      dict_simpl; reflexivity.
  - intros movie env r Hrun.
    destruct (enhance_related_movie_inv _ _ _ _ _ Hrun) as (m & -> & ->).
    rewrite !has_key_lookup. cbn [lookup].
    replace (dict_get (related_record fmt key m env) "posterUrl")
      with (dict_get m "posterUrl"); [auto|].
    unfold related_record. rewrite Hk.
    destruct (_ && _); [destruct (rating_of _)|]; dict_simpl; reflexivity.
  - intros. apply sends_run. now apply sends_enhance_movie_data_no_key.
  - intros. apply sends_run. now apply sends_enhance_related_movie_no_key.
  - intros d movie env Hm Ht. eexists.
    apply (enhance_movie_data_returns fmt key d movie env Hm Ht).
  - intros m env Ht. eexists.
    apply (enhance_related_movie_returns fmt key m env Ht).
Qed.

Lemma C5_witness :
  run (make_tmdb_request None "/search/movie" None (HttpJson sample_tmdb))
  = (Ok VNone, []) /\
  (exists r,
     fst (run (enhance_movie_data format_plain None sample_item all_prompt)) = Ok r /\
     has_key r "posterUrl" = false) /\
  (exists r,
     fst (run (enhance_related_movie format_plain None sample_movie all_prompt))
     = Ok r /\
     has_key r "posterUrl" = false).
Proof.
  destruct (C5_no_key_no_poster format_plain None eq_refl)
    as (Hreq & Hdata & Hrelated & _ & _ & Hok & Hok').
  split; [apply Hreq|]. split.
  - destruct (Hok sample_item_fields sample_movie all_prompt eq_refl eq_refl)
      as [r Hr].
    exists r. split; [exact Hr|]. now apply (Hdata _ _ _ Hr).
  - destruct (Hok' sample_movie_fields all_prompt eq_refl) as [r Hr].
    exists r. split; [exact Hr|]. now apply (Hrelated _ _ _ Hr).
Defined.

(** C10.  For a related movie with its title, whatever the secondary calls
    do (answer, answer with nothing, fail, time out), the record comes back
    with a ['rating'] key; its value is the provider's rating or the default
    0, hence a number whenever the provider's rating is one. *)
Theorem C10_related_record_always_rated
    (fmt : value -> string) (key : option string) (m : dict) (env : enhance_env) :
  has_key (VDict m) "title" = true ->
  (forall v, lookup (fetched (reply (ratings_call env))) "rating" = Some v ->
             is_numeric v = true) ->
  exists r v,
    fst (run (enhance_related_movie fmt key (VDict m) env)) = Ok r /\
    lookup r "rating" = Some v /\
    is_numeric v = true /\
    (v = VInt 0 \/ lookup (fetched (reply (ratings_call env))) "rating" = Some v).
Proof.
  intros Ht Hnum.
  assert (Hrating : forall v, rating_of (fetched (reply (ratings_call env))) = Ok v ->
            is_numeric v = true /\
            (v = VInt 0 \/
             lookup (fetched (reply (ratings_call env))) "rating" = Some v)).
  { unfold rating_of. intros v.
    destruct (truthy _); [|intros [= <-]; auto].
    destruct (fetched (reply (ratings_call env))) as [| | | | | |rd];
      try discriminate.
    rewrite get_method_dict. cbn [lookup] in *.
    destruct (dict_get rd "rating") as [x|]; intros [= <-]; auto. }
  exists (VDict (related_record fmt key m env)).
  assert (Hgoal : exists v,
            dict_get (related_record fmt key m env) "rating" = Some v /\
            is_numeric v = true /\
            (v = VInt 0 \/
             lookup (fetched (reply (ratings_call env))) "rating" = Some v)).
  { unfold related_record.
    destruct (_ && _); [|exists (VInt 0); dict_simpl; auto].
    destruct (rating_of _) as [rating|e] eqn:Er;
      [|exists (VInt 0); dict_simpl; auto].
    destruct (Hrating _ eq_refl) as [Hn Hv].
    destruct (tmdb_configured key); [|exists rating; dict_simpl; auto].
    destruct (on_time 2 (poster_call env));
      [|exists (VInt 0); dict_simpl; auto].
    destruct (poster_lookup _) as [[p|]|e];
      [exists rating | exists rating | exists (VInt 0)]; dict_simpl; auto. }
  destruct Hgoal as (v & Hv). exists v. split; [|exact Hv].
  apply (enhance_related_movie_returns fmt key m env Ht).
Qed.

Lemma C10_witness :
  exists r v,
    fst (run (enhance_related_movie format_plain (Some "k") sample_movie
                ratings_late)) = Ok r /\
    lookup r "rating" = Some v /\
    is_numeric v = true /\
    (v = VInt 0 \/
     lookup (fetched (reply (ratings_call ratings_late))) "rating" = Some v).
Proof.
  apply (C10_related_record_always_rated format_plain (Some "k")
           sample_movie_fields ratings_late).
  - reflexivity.
  - intros v. cbn. intros [= <-]. reflexivity.
Defined.

(** ** Batches *)

Lemma view_append v acc :
  view (append v (VList acc)) = (Ok tt, VList (acc ++ [v])).
Proof. reflexivity. Qed.

#[local] Hint Rewrite view_append : view.

Lemma view_pool_submit_all enhance w i items l :
  view (pool_submit_all enhance w i items l) =
  (Ok (pool_futures enhance w i items), l).
Proof.
  revert i l. induction items as [|item rest IH]; intros i l; cbn [pool_submit_all pool_futures].
  - reflexivity.
  - steps. rewrite IH. steps. reflexivity.
Qed.

Lemma view_collect t futures acc :
  view (collect t futures (VList acc)) = (Ok tt, VList (acc ++ arrived t futures)).
Proof.
  revert acc. induction futures as [|f rest IH]; intros acc; cbn [collect arrived].
  - steps. now rewrite app_nil_r.
  - steps. destruct (result_within t f) as [enhanced|e]; steps.
    + rewrite IH. now rewrite <- app_assoc.
    + apply IH.
Qed.

#[local] Hint Rewrite view_pool_submit_all view_collect : view.

Lemma movie_items_filter (data : list value) :
  Forall (fun item => is_dict item = true) data ->
  movie_items data = Ok (filter movie_tagged data).
Proof.
  induction 1 as [|item rest Hd _ IH]; cbn [movie_items filter].
  - reflexivity.
  - destruct item as [| | | | | |d]; try discriminate.
    rewrite get_method_dict, IH. unfold movie_tagged. cbn [lookup is_dict andb].
    destruct (dict_get d "movie") as [tag|]; reflexivity.
Qed.


Lemma arrived_length t futures : length (arrived t futures) <= length futures.
Proof.
  induction futures as [|f rest IH]; simpl; [lia|].
  destruct (result_within t f); simpl; lia.
Qed.

Lemma pool_futures_length enhance w i items :
  length (pool_futures enhance w i items) = length items.
Proof. revert i. induction items; intros; simpl; auto. Qed.

Lemma result_within_returned enhance w t i item r :
  result_within t {| produced := fst (run (enhance item (secondary w i)));
                     delay := pool_wait w i |} = Ok r <->
  returned enhance w t (i, item) r.
Proof.
  unfold result_within, returned. cbn [delay produced fst snd].
  destruct (Nat.leb (pool_wait w i) t) eqn:E.
  - apply Nat.leb_le in E. tauto.
  - apply Nat.leb_gt in E. split; [discriminate | lia].
Qed.




(** ** Endpoints *)

Lemma blank_query (query : option string) :
  query_arg query = "" <-> negb (truthy (VStr (query_arg query))) = true.
Proof.
  cbn [truthy]. destruct (query_arg query); split; intros H;
    try reflexivity; discriminate.
Qed.

Lemma given_query (query : option string) :
  query_arg query <> "" -> negb (truthy (VStr (query_arg query))) = false.
Proof. cbn [truthy]. destruct (query_arg query); [congruence | reflexivity]. Qed.

Lemma search_movies_run fmt key query w data :
  query_arg query <> "" ->
  primary w = HttpJson (VList data) ->
  Forall (fun item => is_dict item = true) data ->
  fst (run (search_movies fmt key query w)) =
  Ok (jsonify (VList (arrived 5 (pool_futures (enhance_movie_data fmt key) w 0
                                   (firstn 10 (filter movie_tagged data)))))).
Proof.
  intros Hq Hp Hd. rewrite run_view. unfold search_movies.
  rewrite (given_query _ Hq), Hp. unfold make_trakt_request. steps.
  destruct data as [|item rest]; cbn [truthy negb]; steps; [reflexivity|].
  cbn [iterate]. rewrite (movie_items_filter _ Hd). steps. reflexivity.
Qed.


Lemma get_related_movies_run fmt key trakt_id w data :
  primary w = HttpJson (VList data) ->
  fst (run (get_related_movies fmt key trakt_id w)) =
  Ok (jsonify (VList (arrived 3 (pool_futures (enhance_related_movie fmt key) w 0
                                   (firstn 8 data))))).
Proof.
  intros Hp. rewrite run_view. unfold get_related_movies.
  rewrite Hp. unfold make_trakt_request. steps.
  destruct data as [|item rest]; cbn [truthy negb]; steps; [reflexivity|].
  cbn [slice_to]. steps. cbn [iterate]. steps. reflexivity.
Qed.




(** C6, the failing input.  The primary fetch finds no record: the
    enhance-on-demand endpoint answers 404, the detail endpoint answers 200
    with a [null] body. *)
Theorem C6_detail_of_missing_movie_is_200_null
    (fmt : value -> string) (key : option string) (trakt_id : Z)
    (sec : nat -> enhance_env) (pw : nat -> nat) :
  fst (run (enhance_movie fmt key trakt_id
              {| primary := HttpFailure; secondary := sec; pool_wait := pw |}))
  = Ok {| body := error_body "Movie not found"; status := 404 |} /\
  fst (run (get_movie_details fmt trakt_id
              {| primary := HttpFailure; secondary := sec; pool_wait := pw |}))
  = Ok {| body := VNone; status := 200 |}.
Proof.
  split; rewrite run_view.
  - unfold enhance_movie, make_trakt_request. steps. reflexivity.
  - unfold get_movie_details, make_trakt_request. steps. reflexivity.
Qed.




(** C8, as amended.  The fast search sends the primary search and nothing
    else, and answers with the first 15 of the entries tagged as movies,
    untouched: the first 15 entries of the response when all are tagged. *)
Theorem C8_fast_search_keeps_movie_entries_verbatim
    (query : option string) (w : world) (data : list value) :
  query_arg query <> "" ->
  primary w = HttpJson (VList data) ->
  Forall (fun item => is_dict item = true) data ->
  run (search_movies_fast query w) =
    (Ok (jsonify (VList (firstn 15 (filter movie_tagged data)))),
     [{| provider := Trakt; path := "/search/movie";
         params := Some [("query", VStr (query_arg query))] |}]) /\
  (Forall (fun item => movie_tagged item = true) data ->
   fst (run (search_movies_fast query w)) = Ok (jsonify (VList (firstn 15 data)))).
Proof.
  intros Hq Hp Hd.
  assert (Hrun : run (search_movies_fast query w) =
    (Ok (jsonify (VList (firstn 15 (filter movie_tagged data)))),
     [{| provider := Trakt; path := "/search/movie";
         params := Some [("query", VStr (query_arg query))] |}])).
  { unfold run, search_movies_fast. rewrite (given_query _ Hq), Hp.
    destruct data as [|item rest]; [reflexivity|].
    cbv [try_except bind make_trakt_request send ret lift after truthy negb
         iterate].
    rewrite (movie_items_filter _ Hd). reflexivity. }
  split; [exact Hrun|].
  intros Htag. rewrite Hrun. cbn [fst].
  replace (filter movie_tagged data) with data; [reflexivity|].
  clear - Htag. induction Htag as [|item rest Hi _ IH]; [reflexivity|].
  cbn [filter]. rewrite Hi. now f_equal.
Qed.

Lemma C8_witness :
  fst (run (search_movies_fast (Some "batman") (all_in_time twelve_items)))
  = Ok (jsonify (VList twelve_items)).
Proof.
  destruct (C8_fast_search_keeps_movie_entries_verbatim (Some "batman")
              (all_in_time twelve_items) twelve_items) as [_ Hall].
  - discriminate.
  - reflexivity.
  - repeat constructor.
  - apply Hall. repeat constructor.
Defined.

(** C8 as stated fails: an entry of the response that is not tagged as a
    movie is left out, so the answer is not the first 15 entries of the
    response. *)
Lemma C8_counterexample :
  exists out,
    fst (run (search_movies_fast (Some "batman")
                (all_in_time [untagged_item; sample_item])))
    = Ok (jsonify (VList out)) /\
    out = [sample_item] /\
    out <> firstn 15 [untagged_item; sample_item].
Proof. eexists. repeat split. discriminate. Qed.

(** C9.  A search request, full or fast, whose [query] is missing or blank
    once stripped is answered 400 with an error message, below the 5xx
    range, and no request is sent upstream. *)
Theorem C9_blank_query_is_client_error
    (fmt : value -> string) (key : option string)
    (query : option string) (w : world) :
  (query = None \/ exists q, query = Some q /\ strip q = "") ->
  run (search_movies fmt key query w) =
    (Ok {| body := error_body "Query parameter is required"; status := 400 |}, []) /\
  run (search_movies_fast query w) =
    (Ok {| body := error_body "Query parameter is required"; status := 400 |}, []) /\
  status {| body := error_body "Query parameter is required"; status := 400 |} < 500.
Proof.
  intros Hblank.
  assert (Hq : query_arg query = "").
  { destruct Hblank as [-> | (q & -> & Hq)]; [reflexivity | exact Hq]. }
  apply blank_query in Hq.
  unfold search_movies, search_movies_fast. rewrite Hq.
  repeat split. cbn. lia.
Qed.

Lemma C9_witness :
  run (search_movies format_plain (Some "k") (Some "  ") (all_in_time twelve_items))
  = (Ok {| body := error_body "Query parameter is required"; status := 400 |}, []) /\
  run (search_movies_fast None (all_in_time twelve_items))
  = (Ok {| body := error_body "Query parameter is required"; status := 400 |}, []).
Proof.
  split.
  - apply (C9_blank_query_is_client_error format_plain (Some "k") (Some "  ")
             (all_in_time twelve_items)).
    right. exists "  ". split; reflexivity.
  - apply (C9_blank_query_is_client_error format_plain (Some "k") None
             (all_in_time twelve_items)).
    left. reflexivity.
Defined.

(** ** Further properties of the enhancement functions *)

Lemma merged_record_other fmt key d movie env k :
  k <> "stats" -> k <> "ratings" -> k <> "posterUrl" ->
  dict_get (merged_record fmt key d movie env) k = dict_get d k.
Proof.
  intros Hs Hr Hp. unfold merged_record, with_poster.
  destruct (_ && _); [|reflexivity]. cbn zeta.
  destruct (truthy (fetched (reply (stats_call env))));
    destruct (truthy (fetched (reply (ratings_call env))));
    destruct (tmdb_configured key);
    try destruct (on_time 3 (poster_call env));
    try destruct (poster_lookup (fetched (reply (poster_call env))))
      as [[p|]|e];
    repeat rewrite dict_get_set_other by assumption; reflexivity.
Qed.

Lemma related_record_other fmt key m env k :
  k <> "rating" -> k <> "posterUrl" ->
  dict_get (related_record fmt key m env) k = dict_get m k.
Proof.
  intros Hr Hp. unfold related_record.
  destruct (_ && _); [|now rewrite dict_get_set_other].
  destruct (rating_of _); [|now rewrite dict_get_set_other].
  destruct (tmdb_configured key); [|now rewrite dict_get_set_other].
  destruct (on_time 2 (poster_call env));
    try destruct (poster_lookup (fetched (reply (poster_call env))))
      as [[p|]|e];
    repeat rewrite dict_get_set_other by assumption; reflexivity.
Qed.

Lemma related_record_rated fmt key m env :
  exists v, dict_get (related_record fmt key m env) "rating" = Some v.
Proof.
  unfold related_record.
  destruct (_ && _); [|eexists; apply dict_get_set_same].
  destruct (rating_of _); [|eexists; apply dict_get_set_same].
  destruct (tmdb_configured key); [|eexists; apply dict_get_set_same].
  destruct (on_time 2 (poster_call env));
    try destruct (poster_lookup (fetched (reply (poster_call env))))
      as [[p|]|e];
    eexists; dict_simpl; reflexivity.
Qed.

(** X1.  Enhancement only ever touches its own fields: in a record
    [enhance_movie_data] returns, every key other than ['stats'],
    ['ratings'] and ['posterUrl'] is as in the entry, and in a record
    [enhance_related_movie] returns, every key other than ['rating'] and
    ['posterUrl'] is as in the movie. *)
Theorem enhancement_keeps_other_fields
    (fmt : value -> string) (key : option string) (env : enhance_env) :
  (forall item r k,
     fst (run (enhance_movie_data fmt key item env)) = Ok r ->
     k <> "stats" -> k <> "ratings" -> k <> "posterUrl" ->
     lookup r k = lookup item k) /\
  (forall movie r k,
     fst (run (enhance_related_movie fmt key movie env)) = Ok r ->
     k <> "rating" -> k <> "posterUrl" ->
     lookup r k = lookup movie k).
Proof.
  split.
  - intros item r k Hrun Hs Hr Hp.
    destruct (enhance_movie_data_inv _ _ _ _ _ Hrun) as (d & movie & -> & _ & ->).
    cbn [lookup]. now apply merged_record_other.
  - intros movie r k Hrun Hr Hp.
    destruct (enhance_related_movie_inv _ _ _ _ _ Hrun) as (m & -> & ->).
    cbn [lookup]. now apply related_record_other.
Qed.

Lemma enhancement_keeps_other_fields_witness :
  lookup (VDict (merged_record format_plain (Some "k") sample_item_fields
                   sample_movie all_prompt)) "movie" = Some sample_movie /\
  lookup (VDict (related_record format_plain (Some "k") sample_movie_fields
                   all_prompt)) "title" = Some (VStr "Batman").
Proof.
  destruct (enhancement_keeps_other_fields format_plain (Some "k") all_prompt)
    as [Hdata Hrelated].
  split.
  - apply (Hdata sample_item); [reflexivity | discriminate ..].
  - apply (Hrelated sample_movie); [reflexivity | discriminate ..].
Defined.

(** ** Further properties of the batches *)

Lemma arrived_in enhance w t i items r :
  In r (arrived t (pool_futures enhance w i items)) <->
  exists p, In p (indexed i items) /\ returned enhance w t p r.
Proof.
  revert i. induction items as [|item rest IH]; intros i;
    cbn [indexed pool_futures arrived].
  - split; [intros [] | intros (p & [] & _)].
  - pose proof (result_within_returned enhance w t i item) as Hiff.
    destruct (result_within t _) as [r0|e] eqn:E.
    + split.
      * intros [<- | Hin].
        -- exists (i, item). split; [now left | now apply Hiff].
        -- apply IH in Hin. destruct Hin as (p & Hp & Hr).
           exists p. split; [now right | exact Hr].
      * intros (p & [<- | Hp] & Hr).
        -- apply Hiff in Hr. left. congruence.
        -- right. apply IH. eauto.
    + split.
      * intros Hin. apply IH in Hin. destruct Hin as (p & Hp & Hr).
        exists p. split; [now right | exact Hr].
      * intros (p & [<- | Hp] & Hr).
        -- apply Hiff in Hr. discriminate.
        -- apply IH. eauto.
Qed.

(** X2.  One entry never takes its siblings down: the full search (on a
    list of objects) and the full related endpoint answer with exactly the
    records that the pool futures of the truncated batch hand over in time;
    a record is in the answer if and only if some position of the batch
    delivered it, whatever the other positions did. *)
Theorem batch_answer_is_what_was_delivered
    (fmt : value -> string) (key : option string)
    (query : option string) (trakt_id : Z) (w : world) (data : list value) :
  query_arg query <> "" ->
  primary w = HttpJson (VList data) ->
  (Forall (fun item => is_dict item = true) data ->
   exists out,
     fst (run (search_movies fmt key query w)) = Ok (jsonify (VList out)) /\
     forall r,
       In r out <->
       exists p, In p (indexed 0 (firstn 10 (filter movie_tagged data))) /\
                 returned (enhance_movie_data fmt key) w 5 p r) /\
  (exists out,
     fst (run (get_related_movies fmt key trakt_id w)) = Ok (jsonify (VList out)) /\
     forall r,
       In r out <->
       exists p, In p (indexed 0 (firstn 8 data)) /\
                 returned (enhance_related_movie fmt key) w 3 p r).
Proof.
  intros Hq Hp. split.
  - intros Hd. eexists. split.
    + apply (search_movies_run fmt key query w data Hq Hp Hd).
    + intros r. apply arrived_in.
  - eexists. split.
    + apply (get_related_movies_run fmt key trakt_id w data Hp).
    + intros r. apply arrived_in.
Qed.

Lemma batch_answer_is_what_was_delivered_witness :
  exists out,
    fst (run (get_related_movies format_plain (Some "k") 101
                (first_future_late [sample_movie; sample_movie])))
    = Ok (jsonify (VList out)) /\
    In (VDict (related_record format_plain (Some "k") sample_movie_fields
                 all_prompt)) out.
Proof.
  destruct (batch_answer_is_what_was_delivered format_plain (Some "k")
              (Some "batman") 101
              (first_future_late [sample_movie; sample_movie])
              [sample_movie; sample_movie])
    as (_ & out & Hrun & Hin).
  - discriminate.
  - reflexivity.
  - exists out. split; [exact Hrun|]. apply Hin.
    exists (1, sample_movie). split; [right; left; reflexivity|].
    split; [cbn; lia | reflexivity].
Defined.

(** X3.  Every record of the answer of the full related endpoint is an
    object with a ['rating'] key, whatever the entries of the primary
    response are and whatever the secondary calls do. *)
Theorem related_answer_is_rated
    (fmt : value -> string) (key : option string)
    (trakt_id : Z) (w : world) (data : list value) :
  primary w = HttpJson (VList data) ->
  exists out,
    fst (run (get_related_movies fmt key trakt_id w)) = Ok (jsonify (VList out)) /\
    length out <= 8 /\
    Forall (fun r => is_dict r = true /\ has_key r "rating" = true) out.
Proof.
  intros Hp. eexists. split; [|split].
  - apply (get_related_movies_run fmt key trakt_id w data Hp).
  - eapply Nat.le_trans; [apply arrived_length|].
    rewrite pool_futures_length. apply firstn_le_length.
  - apply Forall_forall. intros r Hin.
    apply arrived_in in Hin. destruct Hin as (p & _ & _ & Hrun).
    destruct (enhance_related_movie_inv _ _ _ _ _ Hrun) as (m & _ & ->).
    split; [reflexivity|]. cbn [has_key].
    now destruct (related_record_rated fmt key m (secondary w (fst p))) as [v ->].
Qed.

Lemma related_answer_is_rated_witness :
  exists out,
    fst (run (get_related_movies format_plain (Some "k") 101
                (all_in_time [sample_movie; VStr "stray"; sample_movie])))
    = Ok (jsonify (VList out)) /\
    length out <= 8 /\
    Forall (fun r => is_dict r = true /\ has_key r "rating" = true) out.
Proof.
  apply (related_answer_is_rated format_plain (Some "k") 101
           (all_in_time [sample_movie; VStr "stray"; sample_movie])
           [sample_movie; VStr "stray"; sample_movie]).
  reflexivity.
Defined.

(** ** Stepping through the requests of a computation *)

Lemma emitted_bind A B (m : M A) (k : A -> M B) l :
  emitted (bind m k l) =
  emitted (m l) ++ match view (m l) with
                   | (Ok a, l') => emitted (k a l')
                   | (Raise _, _) => []
                   end.
Proof.
  unfold bind, view. destruct (m l) as [[a|e] l' out]; cbn [res final emitted].
  - apply emitted_after.
  - now rewrite app_nil_r.
Qed.

Lemma emitted_try_except A (b : M A) (h : exn -> M A) l :
  emitted (try_except b h l) =
  emitted (b l) ++ match view (b l) with
                   | (Ok _, _) => []
                   | (Raise e, l') => emitted (h e l')
                   end.
Proof.
  unfold try_except, view. destruct (b l) as [[a|e] l' out]; cbn [res final emitted].
  - now rewrite app_nil_r.
  - apply emitted_after.
Qed.

Lemma emitted_lift A (r : result A) l : emitted (lift r l) = [].
Proof. reflexivity. Qed.

Lemma emitted_ret A (a : A) l : emitted (ret a l) = [].
Proof. reflexivity. Qed.

Lemma emitted_get_local l : emitted (get_local l) = [].
Proof. reflexivity. Qed.

Lemma emitted_set_local v l : emitted (set_local v l) = [].
Proof. reflexivity. Qed.

Lemma emitted_store k v l : emitted (store k v l) = [].
Proof. unfold store. now destruct (setitem l k v). Qed.

Lemma emitted_send rq l : emitted (send rq l) = [rq].
Proof. reflexivity. Qed.

Lemma run_pair A (m : M A) : run m = (fst (view (m VNone)), emitted (m VNone)).
Proof. unfold run, view. now destruct (m VNone). Qed.

Lemma emitted_in_frame A (m : M A) l : emitted (in_frame m l) = emitted (m VNone).
Proof. unfold in_frame. now rewrite run_pair. Qed.

Lemma view_make_trakt_request p ps net l :
  view (make_trakt_request p ps net l) = (Ok (fetched net), l).
Proof. unfold make_trakt_request. steps. now destruct net. Qed.

Lemma emitted_make_trakt_request p ps net l :
  emitted (make_trakt_request p ps net l) =
  [{| provider := Trakt; path := p; params := ps |}].
Proof.
  unfold make_trakt_request. rewrite emitted_bind, emitted_send, view_send.
  now destruct net.
Qed.

Lemma view_call_fn A (m : M A) l : view (call_fn m l) = (fst (run m), l).
Proof. unfold call_fn. steps. reflexivity. Qed.

Create Rewrite HintDb sent.
#[local] Hint Rewrite emitted_bind emitted_try_except emitted_lift emitted_ret
  emitted_get_local emitted_set_local emitted_store emitted_send
  emitted_in_frame emitted_make_trakt_request view_make_trakt_request
  view_call_fn app_nil_r : sent.

Ltac full_steps :=
  repeat (progress (autorewrite with sent view;
                    cbn [fst snd delay produced andb orb negb app])).

(** ** Further properties of the endpoints *)

(** X4.  A primary fetch that finds nothing (a failed request or an empty
    body) makes each list endpoint answer 200 with an empty list: full and
    fast search for a query that is not blank, full and fast related. *)
Theorem nothing_found_is_an_empty_list
    (fmt : value -> string) (key : option string)
    (query : option string) (trakt_id : Z) (w : world) :
  query_arg query <> "" ->
  truthy (fetched (primary w)) = false ->
  fst (run (search_movies fmt key query w)) = Ok (jsonify (VList [])) /\
  fst (run (search_movies_fast query w)) = Ok (jsonify (VList [])) /\
  fst (run (get_related_movies fmt key trakt_id w)) = Ok (jsonify (VList [])) /\
  fst (run (get_related_movies_fast fmt trakt_id w)) = Ok (jsonify (VList [])).
Proof.
  intros Hq Hnone. rewrite !run_view.
  unfold search_movies, search_movies_fast, get_related_movies,
    get_related_movies_fast.
  rewrite (given_query _ Hq).
  repeat split; full_steps; rewrite Hnone; full_steps; reflexivity.
Qed.

Lemma nothing_found_is_an_empty_list_witness :
  fst (run (search_movies format_plain (Some "k") (Some "batman") nothing_found))
  = Ok (jsonify (VList [])) /\
  fst (run (get_related_movies format_plain (Some "k") 101 nothing_found))
  = Ok (jsonify (VList [])).
Proof.
  destruct (nothing_found_is_an_empty_list format_plain (Some "k")
              (Some "batman") 101 nothing_found) as (Hs & _ & Hr & _).
  - discriminate.
  - reflexivity.
  - split; [exact Hs | exact Hr].
Defined.

Lemma movie_items_raises (items : list value) :
  forallb is_dict items = false -> exists e, movie_items items = Raise e.
Proof.
  induction items as [|item rest IH]; cbn [forallb movie_items]; [discriminate|].
  destruct item as [| | | | | |d]; cbn [is_dict andb get_method]; eauto.
  intros Hrest. destruct (IH Hrest) as [e ->].
  destruct (dict_get d "movie"); eauto.
Qed.

Lemma movie_items_of_body_raises (data : value) :
  truthy data = true -> list_of_objects data = false ->
  exists e, match iterate data with
            | Ok items => movie_items items
            | Raise e => Raise e
            end = Raise e.
Proof.
  intros Ht Hl.
  destruct data as [| | | |s|items|d]; cbn [iterate]; eauto.
  - destruct s; [discriminate | cbn; eauto].
  - now apply movie_items_raises.
  - destruct d as [|[k v] rest]; [discriminate | cbn; eauto].
Qed.

(** X5.  A primary search body that is truthy but not a list of objects (an
    object, a string, a number, a list holding something else than objects)
    makes the full and the fast search answer 500 with their error message:
    the exception of the filtering loop is caught by the endpoint. *)
Theorem malformed_search_body_is_500
    (fmt : value -> string) (key : option string)
    (query : option string) (w : world) (data : value) :
  query_arg query <> "" ->
  primary w = HttpJson data ->
  truthy data = true ->
  list_of_objects data = false ->
  fst (run (search_movies fmt key query w)) =
    Ok {| body := error_body "Failed to search movies"; status := 500 |} /\
  fst (run (search_movies_fast query w)) =
    Ok {| body := error_body "Failed to search movies"; status := 500 |}.
Proof.
  intros Hq Hp Ht Hl. rewrite !run_view.
  unfold search_movies, search_movies_fast.
  rewrite (given_query _ Hq), Hp.
  destruct (movie_items_of_body_raises data Ht Hl) as [e He].
  split; full_steps; cbn [fetched]; rewrite Ht; full_steps;
    destruct (iterate data) as [items|e']; full_steps;
    try rewrite He; full_steps; reflexivity.
Qed.

Lemma malformed_search_body_is_500_witness :
  fst (run (search_movies format_plain (Some "k") (Some "batman")
              (all_in_time [sample_item; VStr "stray"]))) =
    Ok {| body := error_body "Failed to search movies"; status := 500 |} /\
  fst (run (search_movies_fast (Some "batman")
              {| primary := HttpJson (VDict [("error", VStr "rate limit")]);
                 secondary := fun _ => all_prompt;
                 pool_wait := fun _ => 1 |})) =
    Ok {| body := error_body "Failed to search movies"; status := 500 |}.
Proof.
  split.
  - apply (malformed_search_body_is_500 format_plain (Some "k") (Some "batman")
             (all_in_time [sample_item; VStr "stray"])
             (VList [sample_item; VStr "stray"]));
      (discriminate || reflexivity).
  - apply (malformed_search_body_is_500 format_plain (Some "k") (Some "batman")
             {| primary := HttpJson (VDict [("error", VStr "rate limit")]);
                secondary := fun _ => all_prompt;
                pool_wait := fun _ => 1 |}
             (VDict [("error", VStr "rate limit")]));
      (discriminate || reflexivity).
Defined.


(** X7.  The fast related endpoint sends the primary request only and
    answers with the first 12 entries of a list-valued response, untouched
    and whatever they are. *)
Theorem related_fast_is_a_prefix
    (fmt : value -> string) (trakt_id : Z) (w : world) (data : list value) :
  primary w = HttpJson (VList data) ->
  run (get_related_movies_fast fmt trakt_id w) =
    (Ok (jsonify (VList (firstn 12 data))),
     [{| provider := Trakt; path := "/movies/" ++ fmt (VInt trakt_id) ++ "/related";
         params := None |}]) /\
  length (firstn 12 data) <= 12.
Proof.
  intros Hp. split; [|apply firstn_le_length].
  rewrite run_pair. unfold get_related_movies_fast. full_steps. rewrite Hp.
  cbn [fetched]. destruct data as [|item rest]; cbn [truthy]; full_steps;
    reflexivity.
Qed.

Lemma related_fast_is_a_prefix_witness :
  fst (run (get_related_movies_fast format_plain 101 (all_in_time twelve_items)))
  = Ok (jsonify (VList twelve_items)).
Proof.
  destruct (related_fast_is_a_prefix format_plain 101 (all_in_time twelve_items)
              twelve_items eq_refl) as [Hrun _].
  now rewrite Hrun.
Defined.

Lemma has_key_subscript (v : value) (k : string) :
  has_key v k = true -> exists x, subscript v k = Ok x.
Proof.
  rewrite has_key_lookup, subscript_lookup.
  destruct (lookup v k); [eauto | discriminate].
Qed.

Lemma no_key_subscript (v : value) (k : string) :
  has_key v k = false -> exists e, subscript v k = Raise e.
Proof.
  rewrite has_key_lookup, subscript_lookup.
  destruct (lookup v k); [discriminate | eauto].
Qed.

Lemma no_trakt_id (movie : value) :
  has_trakt_id movie = false ->
  exists e, match subscript movie "ids" with
            | Ok ids => subscript ids "trakt"
            | Raise e => Raise e
            end = Raise e.
Proof.
  rewrite trakt_id_of_has_trakt_id.
  destruct (match subscript movie "ids" with
            | Ok ids => subscript ids "trakt"
            | Raise e => Raise e
            end); [discriminate | eauto].
Qed.

Lemma emitted_trakt_id_of movie l : emitted (trakt_id_of movie l) = [].
Proof.
  unfold trakt_id_of. full_steps. now destruct (subscript movie "ids").
Qed.

Lemma emitted_log_warning_title movie l : emitted (log_warning_title movie l) = [].
Proof.
  unfold log_warning_title. full_steps. now destruct (subscript movie "title").
Qed.

#[local] Hint Rewrite emitted_trakt_id_of emitted_log_warning_title : sent.

(** X8.  A movie without an identifier ([movie['ids']['trakt']] missing)
    is not looked up anywhere: with its title there, [enhance_movie_data]
    hands the entry back as it is and [enhance_related_movie] hands the
    movie back with [rating] 0, and neither sends a request. *)
Theorem no_identifier_no_request
    (fmt : value -> string) (key : option string) (env : enhance_env)
    (d : dict) (movie : value) (m : dict) :
  dict_get d "movie" = Some movie ->
  has_key movie "title" = true ->
  has_trakt_id movie = false ->
  has_key (VDict m) "title" = true ->
  has_trakt_id (VDict m) = false ->
  run (enhance_movie_data fmt key (VDict d) env) = (Ok (VDict d), []) /\
  run (enhance_related_movie fmt key (VDict m) env) =
    (Ok (VDict (dict_set m "rating" (VInt 0))), []).
Proof.
  intros Hm Ht Hid Htm Hidm.
  destruct (has_key_subscript _ _ Ht) as [title Htitle].
  destruct (has_key_subscript _ _ Htm) as [title' Htitle'].
  destruct (no_trakt_id _ Hid) as [e He].
  destruct (no_trakt_id _ Hidm) as [e' He'].
  split; rewrite run_pair.
  - unfold enhance_movie_data, enhance_movie_data_body.
    cbn [subscript copy_method]. rewrite Hm.
    full_steps. rewrite He. full_steps. rewrite Htitle. reflexivity.
  - unfold enhance_related_movie, enhance_related_movie_body.
    cbn [copy_method].
    full_steps. rewrite He'. full_steps. rewrite Htitle'. full_steps.
    reflexivity.
Qed.

Lemma no_identifier_no_request_witness :
  run (enhance_movie_data format_plain (Some "k")
         (VDict [("movie", VDict [("title", VStr "Untitled")])]) all_prompt)
  = (Ok (VDict [("movie", VDict [("title", VStr "Untitled")])]), []) /\
  run (enhance_related_movie format_plain (Some "k")
         (VDict [("title", VStr "Untitled")]) all_prompt)
  = (Ok (VDict [("title", VStr "Untitled"); ("rating", VInt 0)]), []).
Proof.
  apply (no_identifier_no_request format_plain (Some "k") all_prompt
           [("movie", VDict [("title", VStr "Untitled")])]
           (VDict [("title", VStr "Untitled")])
           [("title", VStr "Untitled")]); reflexivity.
Defined.

Lemma enhance_movie_data_raises fmt key d movie env :
  dict_get d "movie" = Some movie ->
  has_key movie "title" = false ->
  has_trakt_id movie = false ->
  exists e, fst (run (enhance_movie_data fmt key (VDict d) env)) = Raise e.
Proof.
  intros Hm Ht Hid.
  destruct (no_key_subscript _ _ Ht) as [e Htitle].
  destruct (no_trakt_id _ Hid) as [e' He'].
  exists e. rewrite run_view.
  unfold enhance_movie_data, enhance_movie_data_body.
  cbn [subscript copy_method]. rewrite Hm.
  steps. rewrite He'. steps. rewrite Htitle. reflexivity.
Qed.

(** X9.  The [except] branch of [enhance_movie_data] formats
    [movie['title']] and so can raise itself.  For an entry whose movie has
    neither a title nor an identifier the function raises; the
    enhance-on-demand endpoint then answers 500 for such a body, and the
    full search drops such an entry and still answers 200. *)
Theorem untitled_movie_escapes_the_handler
    (fmt : value -> string) (key : option string)
    (query : option string) (trakt_id : Z) (w : world) (body : value) :
  truthy body = true ->
  has_key body "title" = false ->
  has_trakt_id body = false ->
  (exists e,
     fst (run (enhance_movie_data fmt key (VDict [("movie", body)])
                 (secondary w 0))) = Raise e) /\
  (primary w = HttpJson body ->
   fst (run (enhance_movie fmt key trakt_id w)) =
     Ok {| body := error_body "Failed to enhance movie"; status := 500 |}) /\
  (query_arg query <> "" ->
   primary w = HttpJson (VList [VDict [("movie", body)]]) ->
   fst (run (search_movies fmt key query w)) = Ok (jsonify (VList []))).
Proof.
  intros Htruthy Ht Hid.
  destruct (enhance_movie_data_raises fmt key [("movie", body)] body
              (secondary w 0) eq_refl Ht Hid) as [e He].
  repeat split.
  - eauto.
  - intros Hp. rewrite run_view. unfold enhance_movie. rewrite Hp.
    full_steps. cbn [fetched]. rewrite Htruthy. full_steps.
    rewrite He. full_steps. reflexivity.
  - intros Hq Hp.
    rewrite (search_movies_run fmt key query w _ Hq Hp);
      [|repeat constructor].
    cbn [filter movie_tagged lookup dict_get String.eqb Ascii.eqb Bool.eqb
         is_dict andb].
    rewrite Htruthy. cbn [firstn pool_futures arrived result_within delay
                          produced].
    rewrite He. unfold result_within. cbn [delay produced].
    now destruct (Nat.leb (pool_wait w 0) 5).
Qed.

Lemma untitled_movie_escapes_the_handler_witness :
  fst (run (enhance_movie format_plain (Some "k") 7
              {| primary := HttpJson (VDict [("year", VInt 1999)]);
                 secondary := fun _ => all_prompt;
                 pool_wait := fun _ => 1 |})) =
  Ok {| body := error_body "Failed to enhance movie"; status := 500 |}.
Proof.
  destruct (untitled_movie_escapes_the_handler format_plain (Some "k") None 7
              {| primary := HttpJson (VDict [("year", VInt 1999)]);
                 secondary := fun _ => all_prompt;
                 pool_wait := fun _ => 1 |}
              (VDict [("year", VInt 1999)]) eq_refl eq_refl eq_refl)
    as (_ & H500 & _).
  apply H500. reflexivity.
Defined.

(** X10.  The enhance-on-demand endpoint, for a body with a title, answers
    200 with a record that holds the body of the primary fetch untouched
    under ['movie'] and nothing but the enhancement fields beside it. *)
Theorem enhance_on_demand_wraps_the_body
    (fmt : value -> string) (key : option string)
    (trakt_id : Z) (w : world) (body : value) :
  primary w = HttpJson body ->
  truthy body = true ->
  has_key body "title" = true ->
  exists r,
    fst (run (enhance_movie fmt key trakt_id w)) = Ok (jsonify r) /\
    lookup r "movie" = Some body /\
    (forall k, k <> "movie" -> k <> "stats" -> k <> "ratings" ->
               k <> "posterUrl" -> lookup r k = None).
Proof.
  intros Hp Htruthy Ht.
  exists (VDict (merged_record fmt key [("movie", body)] body (secondary w 0))).
  repeat split.
  - rewrite run_view. unfold enhance_movie. rewrite Hp.
    full_steps. cbn [fetched]. rewrite Htruthy. full_steps.
    rewrite (enhance_movie_data_returns fmt key [("movie", body)] body
               (secondary w 0) eq_refl Ht).
    full_steps. reflexivity.
  - cbn [lookup]. now rewrite merged_record_other by discriminate.
  - intros k Hm Hs Hr Hpo. cbn [lookup].
    rewrite merged_record_other by assumption. cbn [dict_get].
    destruct (String.eqb "movie" k) eqn:E; [|reflexivity].
    apply String.eqb_eq in E. congruence.
Qed.

Lemma enhance_on_demand_wraps_the_body_witness :
  exists r,
    fst (run (enhance_movie format_plain (Some "k") 101
                {| primary := HttpJson sample_movie;
                   secondary := fun _ => all_prompt;
                   pool_wait := fun _ => 1 |})) = Ok (jsonify r) /\
    lookup r "movie" = Some sample_movie.
Proof.
  destruct (enhance_on_demand_wraps_the_body format_plain (Some "k") 101
              {| primary := HttpJson sample_movie;
                 secondary := fun _ => all_prompt;
                 pool_wait := fun _ => 1 |} sample_movie)
    as (r & Hrun & Hmovie & _); try reflexivity.
  exists r. split; [exact Hrun | exact Hmovie].
Defined.

(** ** How many requests go out *)

Lemma at_most_weaken A (a b : nat) (m : M A) :
  a <= b -> sends_at_most a m -> sends_at_most b m.
Proof. intros Hab H l. specialize (H l). lia. Qed.

Lemma at_most_ret A n (a : A) : sends_at_most n (ret a).
Proof. intros l. cbn. lia. Qed.

Lemma at_most_lift A n (r : result A) : sends_at_most n (lift r).
Proof. intros l. cbn. lia. Qed.

Lemma at_most_get_local n : sends_at_most n get_local.
Proof. intros l. cbn. lia. Qed.

Lemma at_most_set_local n v : sends_at_most n (set_local v).
Proof. intros l. cbn. lia. Qed.

Lemma at_most_store n k v : sends_at_most n (store k v).
Proof. intros l. rewrite emitted_store. cbn. lia. Qed.

Lemma at_most_append n v : sends_at_most n (append v).
Proof. intros l. unfold append. destruct l; cbn; lia. Qed.

Lemma at_most_bind A B (a b : nat) (m : M A) (k : A -> M B) :
  sends_at_most a m -> (forall x, sends_at_most b (k x)) ->
  sends_at_most (a + b) (bind m k).
Proof.
  intros Hm Hk l. rewrite emitted_bind, length_app. specialize (Hm l).
  destruct (view (m l)) as [[x|e] l']; [specialize (Hk x l') | cbn]; lia.
Qed.

Lemma at_most_try_except A (a b : nat) (body : M A) (h : exn -> M A) :
  sends_at_most a body -> (forall e, sends_at_most b (h e)) ->
  sends_at_most (a + b) (try_except body h).
Proof.
  intros Hb Hh l. rewrite emitted_try_except, length_app. specialize (Hb l).
  destruct (view (body l)) as [[x|e] l']; [cbn | specialize (Hh e l')]; lia.
Qed.

Lemma at_most_in_frame A n (m : M A) :
  sends_at_most n m -> sends_at_most n (in_frame m).
Proof. intros H l. rewrite emitted_in_frame. apply H. Qed.

Lemma at_most_submit n task d :
  sends_at_most n task -> sends_at_most n (submit task d).
Proof.
  intros H. unfold submit.
  eapply at_most_weaken; [|apply (at_most_bind _ _ n 0)].
  - lia.
  - now apply at_most_in_frame.
  - intros. apply at_most_ret.
Qed.

Lemma at_most_call_fn A n (m : M A) :
  sends_at_most n m -> sends_at_most n (call_fn m).
Proof.
  intros H. unfold call_fn.
  eapply at_most_weaken; [|apply (at_most_bind _ _ n 0)].
  - lia.
  - now apply at_most_in_frame.
  - intros. apply at_most_lift.
Qed.

Lemma at_most_make_trakt_request p ps net :
  sends_at_most 1 (make_trakt_request p ps net).
Proof. intros l. now rewrite emitted_make_trakt_request. Qed.

Lemma at_most_make_tmdb_request key p ps net :
  sends_at_most 1 (make_tmdb_request key p ps net).
Proof.
  intros l. unfold make_tmdb_request. destruct (negb (tmdb_configured key)).
  - cbn. lia.
  - rewrite emitted_bind, emitted_send, view_send. destruct net; cbn; lia.
Qed.

(** A step that sends nothing, then the rest. *)
Ltac quiet_then :=
  match goal with
  | |- sends_at_most ?n (bind _ _) => apply (at_most_bind _ _ 0 n); [|intro]
  end.

(** A step that sends one request at most, then the rest. *)
Ltac one_then :=
  match goal with
  | |- sends_at_most (S ?n) (bind _ _) => apply (at_most_bind _ _ 1 n); [|intro]
  end.

Ltac quiet :=
  repeat first
    [ apply at_most_ret | apply at_most_lift | apply at_most_get_local
    | apply at_most_set_local | apply at_most_store | apply at_most_append
    | quiet_then
    | match goal with
      | |- sends_at_most _ (if ?b then _ else _) => destruct b
      | |- sends_at_most _ (match ?x with _ => _ end) => destruct x
      end ].

Lemma at_most_merge_poster n fmt tmdb_data :
  sends_at_most n (merge_poster fmt tmdb_data).
Proof. unfold merge_poster. quiet. Qed.

Lemma at_most_trakt_id_of n movie : sends_at_most n (trakt_id_of movie).
Proof. unfold trakt_id_of. quiet. Qed.

Lemma at_most_log_warning_title n movie :
  sends_at_most n (log_warning_title movie).
Proof. unfold log_warning_title. quiet. Qed.

Lemma at_most_submit_poster key movie c :
  sends_at_most 1 (submit_poster key movie c).
Proof.
  unfold submit_poster. destruct (tmdb_configured key); [|apply at_most_ret].
  quiet_then; [apply at_most_lift|].
  quiet_then; [apply at_most_lift|].
  eapply at_most_weaken; [|apply (at_most_bind _ _ 1 0)].
  - lia.
  - apply at_most_submit, at_most_make_tmdb_request.
  - intros. apply at_most_ret.
Qed.

Lemma at_most_enhance_movie_data fmt key item env :
  sends_at_most 3 (enhance_movie_data fmt key item env).
Proof.
  unfold enhance_movie_data.
  do 3 (quiet_then; [quiet|]).
  apply (at_most_bind _ _ 3 0); [|intros; apply at_most_get_local].
  apply (at_most_try_except _ 3 0); [|intros; apply at_most_log_warning_title].
  unfold enhance_movie_data_body.
  quiet_then; [apply at_most_trakt_id_of|].
  one_then; [apply at_most_submit, at_most_make_trakt_request|].
  quiet_then; [apply at_most_trakt_id_of|].
  one_then; [apply at_most_submit, at_most_make_trakt_request|].
  one_then; [apply at_most_submit_poster|].
  pose proof at_most_merge_poster. quiet; auto.
Qed.

Lemma at_most_enhance_related_movie fmt key movie env :
  sends_at_most 2 (enhance_related_movie fmt key movie env).
Proof.
  unfold enhance_related_movie.
  do 2 (quiet_then; [quiet|]).
  apply (at_most_bind _ _ 2 0); [|intros; apply at_most_get_local].
  apply (at_most_try_except _ 2 0).
  2:{ intros. quiet_then; [apply at_most_log_warning_title | apply at_most_store]. }
  unfold enhance_related_movie_body.
  quiet_then; [apply at_most_trakt_id_of|].
  one_then; [apply at_most_submit, at_most_make_trakt_request|].
  one_then; [apply at_most_submit_poster|].
  pose proof at_most_merge_poster. quiet; auto.
Qed.

Lemma at_most_pool_submit_all enhance w i items c :
  (forall item env, sends_at_most c (enhance item env)) ->
  sends_at_most (c * length items) (pool_submit_all enhance w i items).
Proof.
  intros Hc. revert i. induction items as [|item rest IH]; intros i;
    cbn [pool_submit_all length].
  - apply at_most_ret.
  - eapply at_most_weaken;
      [|apply (at_most_bind _ _ c (c * length rest))].
    + lia.
    + apply at_most_submit, Hc.
    + intros f.
      eapply at_most_weaken;
        [|apply (at_most_bind _ _ (c * length rest) 0)].
      * lia.
      * apply IH.
      * intros. apply at_most_ret.
Qed.

Lemma at_most_collect n t futures : sends_at_most n (collect t futures).
Proof.
  induction futures as [|f rest IH]; cbn [collect]; [apply at_most_ret|].
  quiet_then; [|exact IH].
  apply (at_most_try_except _ 0 0); [quiet | intros; apply at_most_ret].
Qed.

Lemma at_most_run A n (m : M A) : sends_at_most n m -> length (snd (run m)) <= n.
Proof. intros H. rewrite run_pair. apply H. Qed.

Lemma sliced_length n v v' items :
  slice_to n v = Ok v' -> iterate v' = Ok items -> length items <= n.
Proof.
  destruct v as [| | | |s|l|d]; try discriminate; cbn [slice_to];
    intros [= <-]; cbn [iterate]; intros [= <-].
  - revert s. induction n as [|n IH]; intros [|c s]; cbn; try lia.
    specialize (IH s). lia.
  - apply firstn_le_length.
Qed.

Lemma at_most_bind_lift A B n (r : result A) (k : A -> M B) :
  (forall x, r = Ok x -> sends_at_most n (k x)) ->
  sends_at_most n (bind (lift r) k).
Proof.
  intros Hk l. rewrite emitted_bind, emitted_lift, view_lift.
  destruct r as [x|e]; cbn [app]; [apply (Hk x eq_refl) | cbn; lia].
Qed.

Lemma at_most_batch enhance w c t limit (items : list value) :
  (forall item env, sends_at_most c (enhance item env)) ->
  length items <= limit ->
  sends_at_most (c * limit)
    (futures <- pool_submit_all enhance w 0 items ;;
     collect t futures ;;;
     enhanced <- get_local ;;
     ret (jsonify enhanced)).
Proof.
  intros Hc Hlen.
  eapply at_most_weaken; [|apply (at_most_bind _ _ (c * length items) 0)].
  - nia.
  - now apply at_most_pool_submit_all.
  - intros futures. quiet_then; [apply at_most_collect|]. quiet.
Qed.

(** X11.  The number of upstream requests of every operation is bounded,
    whatever the inputs and the replies: 3 for one [enhance_movie_data], 2
    for one [enhance_related_movie], 31 for a full search (one search plus
    three for each of at most 10 entries), 17 for a full related fetch, 4 for
    enhance-on-demand, and 1 for each fast endpoint. *)
Theorem request_budget
    (fmt : value -> string) (key : option string)
    (query : option string) (trakt_id : Z) (w : world)
    (item : value) (env : enhance_env) :
  length (snd (run (enhance_movie_data fmt key item env))) <= 3 /\
  length (snd (run (enhance_related_movie fmt key item env))) <= 2 /\
  length (snd (run (search_movies fmt key query w))) <= 31 /\
  length (snd (run (get_related_movies fmt key trakt_id w))) <= 17 /\
  length (snd (run (enhance_movie fmt key trakt_id w))) <= 4 /\
  length (snd (run (search_movies_fast query w))) <= 1 /\
  length (snd (run (get_related_movies_fast fmt trakt_id w))) <= 1.
Proof.
  repeat apply conj; apply at_most_run.
  - apply at_most_enhance_movie_data.
  - apply at_most_enhance_related_movie.
  - unfold search_movies.
    destruct (negb (truthy (VStr (query_arg query)))); [apply at_most_ret|].
    apply (at_most_try_except _ 31 0); [|intros; apply at_most_ret].
    one_then; [apply at_most_make_trakt_request|].
    destruct (negb (truthy x)); [apply at_most_ret|].
    do 2 (quiet_then; [apply at_most_lift|]). cbn zeta.
    quiet_then; [apply at_most_set_local|].
    apply (at_most_batch (enhance_movie_data fmt key) w 3 5 10).
    + intros. apply at_most_enhance_movie_data.
    + apply firstn_le_length.
  - unfold get_related_movies.
    apply (at_most_try_except _ 17 0); [|intros; apply at_most_ret].
    one_then; [apply at_most_make_trakt_request|].
    destruct (negb (truthy x)); [apply at_most_ret|].
    apply at_most_bind_lift. intros sliced Hs.
    quiet_then; [apply at_most_set_local|].
    apply at_most_bind_lift. intros movies Hm.
    apply (at_most_batch (enhance_related_movie fmt key) w 2 3 8).
    + intros. apply at_most_enhance_related_movie.
    + apply (sliced_length 8 x sliced movies Hs Hm).
  - unfold enhance_movie.
    apply (at_most_try_except _ 4 0); [|intros; apply at_most_ret].
    one_then; [apply at_most_make_trakt_request|].
    destruct (negb (truthy x)); [apply at_most_ret|]. cbn zeta.
    eapply at_most_weaken; [|apply (at_most_bind _ _ 3 0)].
    + lia.
    + apply at_most_call_fn, at_most_enhance_movie_data.
    + intros. apply at_most_ret.
  - unfold search_movies_fast.
    destruct (negb (truthy (VStr (query_arg query)))); [apply at_most_ret|].
    apply (at_most_try_except _ 1 0); [|intros; apply at_most_ret].
    eapply at_most_weaken; [|apply (at_most_bind _ _ 1 0)].
    + lia.
    + apply at_most_make_trakt_request.
    + intros. quiet.
  - unfold get_related_movies_fast.
    apply (at_most_try_except _ 1 0); [|intros; apply at_most_ret].
    eapply at_most_weaken; [|apply (at_most_bind _ _ 1 0)].
    + lia.
    + apply at_most_make_trakt_request.
    + intros. quiet.
Qed.

(** ** Where the image-provider key goes *)

Lemma sends_pool_submit_all P enhance w i items :
  (forall item env, sends P (enhance item env)) ->
  sends P (pool_submit_all enhance w i items).
Proof.
  intros He. revert i. induction items as [|item rest IH]; intros i;
    cbn [pool_submit_all].
  - apply sends_ret.
  - apply sends_bind; [apply sends_submit, He|]. intros f.
    apply sends_bind; [apply IH|]. intros. apply sends_ret.
Qed.

Lemma sends_collect P t futures : sends P (collect t futures).
Proof.
  induction futures as [|f rest IH]; cbn [collect]; [apply sends_ret|].
  apply sends_bind; [|intros; exact IH].
  apply sends_try_except; [|intros; apply sends_ret].
  apply sends_bind; [apply sends_lift | intros; apply sends_append].
Qed.

Lemma clean_make_trakt_request p ps net :
  match ps with
  | None => True
  | Some d => dict_get d "api_key" = None
  end ->
  sends trakt_params_clean (make_trakt_request p ps net).
Proof.
  intros Hps. unfold make_trakt_request.
  apply sends_bind; [|intros; destruct net; apply sends_ret].
  apply sends_send. intros _. exact Hps.
Qed.

Lemma clean_make_tmdb_request key p ps net :
  sends trakt_params_clean (make_tmdb_request key p ps net).
Proof.
  unfold make_tmdb_request. destruct (negb (tmdb_configured key));
    [apply sends_ret|].
  apply sends_bind; [|intros; destruct net; apply sends_ret].
  apply sends_send. intros H. discriminate H.
Qed.

Lemma keyed_make_trakt_request k p ps net :
  sends (tmdb_carries_key k) (make_trakt_request p ps net).
Proof.
  unfold make_trakt_request.
  apply sends_bind; [|intros; destruct net; apply sends_ret].
  apply sends_send. intros H. discriminate H.
Qed.

Lemma keyed_make_tmdb_request k p ps net :
  sends (tmdb_carries_key k) (make_tmdb_request (Some k) p ps net).
Proof.
  unfold make_tmdb_request. destruct (negb (tmdb_configured (Some k)));
    [apply sends_ret|].
  apply sends_bind; [|intros; destruct net; apply sends_ret].
  apply sends_send. intros _. eexists. split; [reflexivity|].
  apply dict_get_set_same.
Qed.

Ltac sends_with_tmdb lemma :=
  unfold submit_poster;
  match goal with
  | |- sends _ (if ?b then _ else _) => destruct b; [|apply sends_ret]
  end;
  apply sends_bind; [apply sends_lift | intro];
  apply sends_bind; [apply sends_lift | intro];
  apply sends_bind; [apply sends_submit, lemma | intros; apply sends_ret].

Lemma clean_submit_poster key movie c :
  sends trakt_params_clean (submit_poster key movie c).
Proof. sends_with_tmdb clean_make_tmdb_request. Qed.

Lemma keyed_submit_poster k movie c :
  sends (tmdb_carries_key k) (submit_poster (Some k) movie c).
Proof. sends_with_tmdb keyed_make_tmdb_request. Qed.

Lemma sends_enhancement P fmt key :
  (forall p net, sends P (make_trakt_request p None net)) ->
  (forall movie c, sends P (submit_poster key movie c)) ->
  (forall item env, sends P (enhance_movie_data fmt key item env)) /\
  (forall movie env, sends P (enhance_related_movie fmt key movie env)).
Proof.
  intros Htrakt Hposter. pose proof (sends_merge_poster P) as Hmerge.
  split; intros.
  - unfold enhance_movie_data, enhance_movie_data_body, trakt_id_of,
      log_warning_title.
    sends_steps.
  - unfold enhance_related_movie, enhance_related_movie_body, trakt_id_of,
      log_warning_title.
    sends_steps.
Qed.

Lemma sends_endpoints P fmt key query trakt_id w :
  (forall p ps net,
     match ps with
     | None => True
     | Some d => dict_get d "api_key" = None
     end -> sends P (make_trakt_request p ps net)) ->
  (forall movie c, sends P (submit_poster key movie c)) ->
  sends P (search_movies fmt key query w) /\
  sends P (get_related_movies fmt key trakt_id w) /\
  sends P (enhance_movie fmt key trakt_id w).
Proof.
  intros Htrakt Hposter.
  destruct (sends_enhancement P fmt key
              (fun p net => Htrakt p None net I) Hposter) as [Hdata Hrelated].
  repeat split.
  - unfold search_movies.
    destruct (negb (truthy (VStr (query_arg query)))); [apply sends_ret|].
    apply sends_try_except; [|intros; apply sends_ret].
    apply sends_bind; [now apply Htrakt | intros data].
    destruct (negb (truthy data)); [apply sends_ret|].
    apply sends_bind; [apply sends_lift | intros items].
    apply sends_bind; [apply sends_lift | intros kept]. cbn zeta.
    apply sends_bind; [apply sends_set_local | intros _].
    apply sends_bind; [now apply sends_pool_submit_all | intros futures].
    apply sends_bind; [apply sends_collect | intros _].
    apply sends_bind; [apply sends_get_local | intros; apply sends_ret].
  - unfold get_related_movies.
    apply sends_try_except; [|intros; apply sends_ret].
    apply sends_bind; [now apply Htrakt | intros data].
    destruct (negb (truthy data)); [apply sends_ret|].
    apply sends_bind; [apply sends_lift | intros sliced].
    apply sends_bind; [apply sends_set_local | intros _].
    apply sends_bind; [apply sends_lift | intros movies].
    apply sends_bind; [now apply sends_pool_submit_all | intros futures].
    apply sends_bind; [apply sends_collect | intros _].
    apply sends_bind; [apply sends_get_local | intros; apply sends_ret].
  - unfold enhance_movie, call_fn.
    apply sends_try_except; [|intros; apply sends_ret].
    apply sends_bind; [now apply Htrakt | intros data].
    destruct (negb (truthy data)); [apply sends_ret|]. cbn zeta.
    apply sends_bind; [|intros; apply sends_ret].
    apply sends_bind; [apply sends_in_frame, Hdata | intros; apply sends_lift].
Qed.

(** X12.  The image-provider key stays with the image provider.  Of the
    requests the full search, the full related fetch and enhance-on-demand
    send, none to the catalog provider has an [api_key] parameter, and, with
    a key [k] configured, every one to the image provider has [api_key]
    set to [k]. *)
Theorem api_key_goes_to_tmdb_only
    (fmt : value -> string) (key : option string)
    (query : option string) (trakt_id : Z) (w : world) :
  (Forall trakt_params_clean (snd (run (search_movies fmt key query w))) /\
   Forall trakt_params_clean (snd (run (get_related_movies fmt key trakt_id w))) /\
   Forall trakt_params_clean (snd (run (enhance_movie fmt key trakt_id w)))) /\
  (forall k, key = Some k ->
     Forall (tmdb_carries_key k) (snd (run (search_movies fmt key query w))) /\
     Forall (tmdb_carries_key k)
            (snd (run (get_related_movies fmt key trakt_id w))) /\
     Forall (tmdb_carries_key k) (snd (run (enhance_movie fmt key trakt_id w)))).
Proof.
  split.
  - destruct (sends_endpoints trakt_params_clean fmt key query trakt_id w)
      as (Hs & Hr & He).
    + intros. now apply clean_make_trakt_request.
    + apply clean_submit_poster.
    + repeat split; now apply sends_run.
  - intros k ->.
    destruct (sends_endpoints (tmdb_carries_key k) fmt (Some k) query trakt_id w)
      as (Hs & Hr & He).
    + intros. apply keyed_make_trakt_request.
    + apply keyed_submit_poster.
    + repeat split; now apply sends_run.
Qed.

Lemma api_key_goes_to_tmdb_only_witness :
  Forall (tmdb_carries_key "k")
         (snd (run (search_movies format_plain (Some "k") (Some "batman")
                      (all_in_time [sample_item])))) /\
  exists rq,
    In rq (snd (run (search_movies format_plain (Some "k") (Some "batman")
                       (all_in_time [sample_item])))) /\
    provider rq = Tmdb.
Proof.
  destruct (api_key_goes_to_tmdb_only format_plain (Some "k") (Some "batman")
              101 (all_in_time [sample_item])) as [_ Hkeyed].
  destruct (Hkeyed "k" eq_refl) as (Hs & _ & _).
  split; [exact Hs|].
  eexists. split; [do 3 right; left; reflexivity | reflexivity].
Defined.

(** X13.  The poster comes from the first result only.  For a search body
    of the image provider whose [results] is a list starting with an
    object, the poster block sets [posterUrl] to the image base followed by
    that object's [poster_path] when it is truthy and leaves the record as
    it is otherwise, whatever the later results hold; it raises nothing. *)
Theorem poster_is_the_first_result
    (fmt : value -> string) (t first : dict) (rest : list value) (d : dict) :
  dict_get t "results" = Some (VList (VDict first :: rest)) ->
  view (merge_poster fmt (VDict t) (VDict d)) =
  (Ok tt,
   VDict match dict_get first "poster_path" with
         | Some p =>
             if truthy p
             then dict_set d "posterUrl" (VStr (TMDB_IMAGE_BASE ++ fmt p))
             else d
         | None => d
         end).
Proof.
  intros Hres. rewrite view_merge_poster. unfold poster_lookup.
  assert (Ht : truthy (VDict t) = true).
  { destruct t; [discriminate Hres | reflexivity]. }
  rewrite Ht, get_method_dict, Hres. cbn [truthy index0].
  rewrite get_method_dict.
  destruct (dict_get first "poster_path") as [p|]; [|reflexivity].
  now destruct (truthy p).
Qed.

Lemma poster_is_the_first_result_witness :
  view (merge_poster format_plain
          (VDict [("results",
                   VList [VDict [("poster_path", VNone)];
                          VDict [("poster_path", VStr "/later.jpg")]])])
          sample_movie) = (Ok tt, sample_movie).
Proof.
  apply (poster_is_the_first_result format_plain
           [("results",
             VList [VDict [("poster_path", VNone)];
                    VDict [("poster_path", VStr "/later.jpg")]])]
           [("poster_path", VNone)]
           [VDict [("poster_path", VStr "/later.jpg")]]
           sample_movie_fields).
  reflexivity.
Defined.

(** X14.  Once the module has loaded, which takes a catalog key, the health
    check answers 200 and reports [trakt_api_configured] true; its
    [tmdb_api_configured] flag tells whether the image client sends
    anything: one request when it is true, none when it is false. *)
Theorem health_check_tells_the_configuration
    (trakt_key tmdb_key : option string) :
  validate_environment trakt_key = Started ->
  status (health_check trakt_key tmdb_key) = 200 /\
  lookup (body (health_check trakt_key tmdb_key)) "trakt_api_configured"
    = Some (VBool true) /\
  exists flag,
    lookup (body (health_check trakt_key tmdb_key)) "tmdb_api_configured"
      = Some (VBool flag) /\
    forall endpoint ps net,
      length (snd (run (make_tmdb_request tmdb_key endpoint ps net)))
      = if flag then 1 else 0.
Proof.
  unfold validate_environment. intros Hstart.
  destruct (key_set trakt_key) eqn:Hk; [|discriminate Hstart].
  split; [reflexivity|]. split.
  - cbn. now rewrite Hk.
  - exists (key_set tmdb_key). split; [reflexivity|].
    intros endpoint ps net. rewrite run_pair. cbn [snd].
    unfold make_tmdb_request.
    replace (tmdb_configured tmdb_key) with (key_set tmdb_key) by reflexivity.
    destruct (key_set tmdb_key); cbn [negb]; [|reflexivity].
    rewrite emitted_bind, emitted_send, view_send. now destruct net.
Qed.

Lemma health_check_tells_the_configuration_witness :
  lookup (body (health_check (Some "trakt") None)) "trakt_api_configured"
    = Some (VBool true) /\
  lookup (body (health_check (Some "trakt") None)) "tmdb_api_configured"
    = Some (VBool false).
Proof.
  destruct (health_check_tells_the_configuration (Some "trakt") None eq_refl)
    as (_ & Htrakt & _).
  split; [exact Htrakt | reflexivity].
Defined.

Lemma indexed_in i items p : In p (indexed i items) -> In (snd p) items.
Proof.
  revert i. induction items as [|item rest IH]; intros i; cbn [indexed];
    [intros []|].
  intros [<- | Hin]; [now left | right; eapply IH; eauto].
Qed.

(** X15.  What the full endpoints answer is made of the entries of the
    primary response.  Every record of the full search (on a list of
    objects) agrees with one of the first 10 movie-tagged entries on every
    key other than ['stats'], ['ratings'] and ['posterUrl'], so its
    ['movie'] is that entry's; every record of the full related fetch agrees
    with one of the first 8 entries on every key other than ['rating'] and
    ['posterUrl']. *)
Theorem answers_keep_the_primary_fields
    (fmt : value -> string) (key : option string)
    (query : option string) (trakt_id : Z) (w : world) (data : list value) :
  query_arg query <> "" ->
  primary w = HttpJson (VList data) ->
  (Forall (fun item => is_dict item = true) data ->
   exists out,
     fst (run (search_movies fmt key query w)) = Ok (jsonify (VList out)) /\
     Forall (fun r =>
               exists item,
                 In item (firstn 10 (filter movie_tagged data)) /\
                 forall k, k <> "stats" -> k <> "ratings" -> k <> "posterUrl" ->
                           lookup r k = lookup item k) out) /\
  (exists out,
     fst (run (get_related_movies fmt key trakt_id w)) = Ok (jsonify (VList out)) /\
     Forall (fun r =>
               exists movie,
                 In movie (firstn 8 data) /\
                 forall k, k <> "rating" -> k <> "posterUrl" ->
                           lookup r k = lookup movie k) out).
Proof.
  intros Hq Hp. split.
  - intros Hd. eexists. split.
    + apply (search_movies_run fmt key query w data Hq Hp Hd).
    + apply Forall_forall. intros r Hin.
      apply arrived_in in Hin. destruct Hin as (p & Hin & _ & Hrun).
      exists (snd p). split; [now apply indexed_in in Hin|].
      destruct (enhance_movie_data_inv _ _ _ _ _ Hrun)
        as (d & movie & -> & _ & ->).
      intros k Hs Hr Hpo. cbn [lookup]. now apply merged_record_other.
  - eexists. split.
    + apply (get_related_movies_run fmt key trakt_id w data Hp).
    + apply Forall_forall. intros r Hin.
      apply arrived_in in Hin. destruct Hin as (p & Hin & _ & Hrun).
      exists (snd p). split; [now apply indexed_in in Hin|].
      destruct (enhance_related_movie_inv _ _ _ _ _ Hrun) as (m & -> & ->).
      intros k Hr Hpo. cbn [lookup]. now apply related_record_other.
Qed.

Lemma answers_keep_the_primary_fields_witness :
  exists out,
    fst (run (search_movies format_plain (Some "k") (Some "batman")
                (all_in_time [sample_item]))) = Ok (jsonify (VList out)) /\
    Forall (fun r =>
              exists item,
                In item (firstn 10 (filter movie_tagged [sample_item])) /\
                forall k, k <> "stats" -> k <> "ratings" -> k <> "posterUrl" ->
                          lookup r k = lookup item k) out.
Proof.
  destruct (answers_keep_the_primary_fields format_plain (Some "k")
              (Some "batman") 101 (all_in_time [sample_item]) [sample_item])
    as [Hsearch _].
  - discriminate.
  - reflexivity.
  - apply Hsearch. repeat constructor.
Defined.
